(** * ALFWorld API: session and worker coordination layer

    A shallow embedding of [alfworld/api/session_manager.py],
    [alfworld/api/routes.py] and the response models of
    [alfworld/api/models.py]: the Docker attach-stream decoder, the worker
    channel, the session registry with its admission semaphore, and the
    step / get / delete handlers with the validation of what they return.

    Conventions.
    - A Python [bytes] value is a [list byte].
    - A Python [str] is a [string] holding the UTF-8 encoding of the text;
      [bytes.decode("utf-8", errors="replace")] therefore copies the
      well-formed sequences and writes the encoding of U+FFFD for every
      ill-formed one.
    - The session map [_sessions] is a [gmap string Session].
    - Calls into Docker, the attached socket, the clock, [uuid4] and
      [random] take their outcome from an explicit environment record and
      leave a trace of events; so does [json.loads], which returns a value
      or raises.
    - The handlers take the batch coordinator they call as an argument,
      as the code takes it from the application state. *)

From Stdlib Require Import Strings.String Strings.Ascii Strings.Byte.
From Stdlib Require Import NArith ZArith Lia List.
From Stdlib Require Floats.PrimFloat Floats.SpecFloat Floats.FloatOps.
From stdpp Require Import gmap strings list fin_maps.

Import ListNotations.
Local Open Scope string_scope.
Local Open Scope list_scope.
Local Open Scope nat_scope.

(** ** Python primitives used by the code *)

Module Py.

(** [int.from_bytes(bs, "big")]. *)
Definition from_bytes_big (bs : list byte) : N :=
  fold_left (fun acc b => (acc * 256 + Byte.to_N b)%N) bs 0%N.

(** [raw[lo:hi]] for [0 <= lo <= hi]. *)
Definition slice {A} (l : list A) (lo hi : nat) : list A :=
  take (hi - lo) (drop lo l).

(** [raw[lo:]]. *)
Definition slice_from {A} (l : list A) (lo : nat) : list A := drop lo l.

(** ["".join(parts)]. *)
Definition join (parts : list string) : string :=
  fold_right String.append "" parts.

(** The UTF-8 encoding of U+FFFD, the replacement character. *)
Definition replacement : list byte := [xef; xbf; xbd].

Definition between (lo hi : N) (b : byte) : bool :=
  ((lo <=? Byte.to_N b) && (Byte.to_N b <=? hi))%N.

(** A continuation byte, [0x80 .. 0xBF]. *)
Definition is_cont (b : byte) : bool := between 0x80 0xBF b.

(** The range allowed for the second byte after the lead byte [b0] of a
    three- or four-byte sequence (Unicode table 3-7). *)
Definition second_range (b0 : byte) : N * N :=
  match b0 with
  | xe0 => (0xA0, 0xBF)
  | xed => (0x80, 0x9F)
  | xf0 => (0x90, 0xBF)
  | xf4 => (0x80, 0x8F)
  | _ => (0x80, 0xBF)
  end%N.

Definition second_ok (b0 b1 : byte) : bool :=
  between (fst (second_range b0)) (snd (second_range b0)) b1.

(** The bytes of the text [bs.decode("utf-8", errors="replace")]: every
    well-formed sequence is kept, every maximal ill-formed subpart
    becomes one U+FFFD. *)
Fixpoint scrub (bs : list byte) : list byte :=
  match bs with
  | [] => []
  | b0 :: r0 =>
    if between 0x00 0x7F b0 then b0 :: scrub r0
    else if between 0xC2 0xDF b0 then
      match r0 with
      | b1 :: r1 =>
        if is_cont b1 then b0 :: b1 :: scrub r1
        else replacement ++ scrub r0
      | [] => replacement
      end
    else if between 0xE0 0xEF b0 then
      match r0 with
      | b1 :: r1 =>
        if second_ok b0 b1 then
          match r1 with
          | b2 :: r2 =>
            if is_cont b2 then b0 :: b1 :: b2 :: scrub r2
            else replacement ++ scrub r1
          | [] => replacement
          end
        else replacement ++ scrub r0
      | [] => replacement
      end
    else if between 0xF0 0xF4 b0 then
      match r0 with
      | b1 :: r1 =>
        if second_ok b0 b1 then
          match r1 with
          | b2 :: r2 =>
            if is_cont b2 then
              match r2 with
              | b3 :: r3 =>
                if is_cont b3 then b0 :: b1 :: b2 :: b3 :: scrub r3
                else replacement ++ scrub r2
              | [] => replacement
              end
            else replacement ++ scrub r1
          | [] => replacement
          end
        else replacement ++ scrub r0
      | [] => replacement
      end
    else replacement ++ scrub r0
  end.

(** [bs.decode("utf-8", errors="replace")]. *)
Definition decode_utf8_replace (bs : list byte) : string :=
  string_of_list_byte (scrub bs).

(** [s.encode("utf-8")]. *)
Definition encode_utf8 (s : string) : list byte := list_byte_of_string s.

(** [needle in hay] on strings. *)
Fixpoint contains (needle hay : string) : bool :=
  if String.prefix needle hay then true
  else match hay with
       | EmptyString => false
       | String _ hay' => contains needle hay'
       end.

(** [s.startswith(p)]. *)
Definition startswith (s p : string) : bool := String.prefix p s.

(** [s[n:]] on strings. *)
Fixpoint str_drop (n : nat) (s : string) : string :=
  match n, s with
  | O, _ => s
  | S n', String _ s' => str_drop n' s'
  | S _, EmptyString => EmptyString
  end.

(** [buf.split("\n", 1)] when ["\n" in buf]: the text before the first
    newline and the text after it; [None] when there is no newline. *)
Fixpoint split_newline (buf : string) : option (string * string) :=
  match buf with
  | EmptyString => None
  | String c rest =>
    if Ascii.eqb c "010"%char then Some (EmptyString, rest)
    else match split_newline rest with
         | Some (line, rest') => Some (String c line, rest')
         | None => None
         end
  end.

(** The characters [str.strip] removes, those of [str.isspace], by the
    bytes of their UTF-8 encoding: U+0009..U+000D and U+001C..U+0020 in one
    byte; U+0085 and U+00A0 in two; U+1680, U+2000..U+200A, U+2028,
    U+2029, U+202F, U+205F and U+3000 in three. *)
Definition is_space1 (b0 : byte) : bool :=
  between 0x09 0x0D b0 || between 0x1C 0x20 b0.

Definition is_space2 (b0 b1 : byte) : bool :=
  Byte.eqb b0 xc2 && (Byte.eqb b1 x85 || Byte.eqb b1 xa0).

Definition is_space3 (b0 b1 b2 : byte) : bool :=
  (Byte.eqb b0 xe1 && Byte.eqb b1 x9a && Byte.eqb b2 x80)
  || (Byte.eqb b0 xe2 && Byte.eqb b1 x80
      && (between 0x80 0x8A b2 || Byte.eqb b2 xa8 || Byte.eqb b2 xa9
          || Byte.eqb b2 xaf))
  || (Byte.eqb b0 xe2 && Byte.eqb b1 x81 && Byte.eqb b2 x9f)
  || (Byte.eqb b0 xe3 && Byte.eqb b1 x80 && Byte.eqb b2 x80).

(** [s.lstrip()] on the bytes of [s]. *)
Fixpoint lstrip_bytes (bs : list byte) : list byte :=
  match bs with
  | [] => []
  | b0 :: r0 =>
    if is_space1 b0 then lstrip_bytes r0
    else
      match r0 with
      | [] => bs
      | b1 :: r1 =>
        if is_space2 b0 b1 then lstrip_bytes r1
        else
          match r1 with
          | [] => bs
          | b2 :: r2 => if is_space3 b0 b1 b2 then lstrip_bytes r2 else bs
          end
      end
  end.

(** [s.rstrip()] on the bytes of [s], last byte first. *)
Fixpoint rstrip_rev (bs : list byte) : list byte :=
  match bs with
  | [] => []
  | b0 :: r0 =>
    if is_space1 b0 then rstrip_rev r0
    else
      match r0 with
      | [] => bs
      | b1 :: r1 =>
        if is_space2 b1 b0 then rstrip_rev r1
        else
          match r1 with
          | [] => bs
          | b2 :: r2 => if is_space3 b2 b1 b0 then rstrip_rev r2 else bs
          end
      end
  end.

(** [s.strip()]. *)
Definition strip (s : string) : string :=
  string_of_list_byte
    (rev (rstrip_rev (rev (lstrip_bytes (list_byte_of_string s))))).

End Py.

(** ** Further Python primitives *)

Module PyMore.

(** The byte of value [n mod 256]. *)
Definition byte_of (n : N) : byte :=
  match Byte.of_N (n mod 256) with Some b => b | None => x00 end.

(** [n.to_bytes(4, "big")] for [n < 2**32]. *)
Definition to_bytes_big4 (n : N) : list byte :=
  [byte_of (n / 16777216); byte_of (n / 65536); byte_of (n / 256); byte_of n]%N.

(** [s.split(sep)] for a separator of one character. *)
Fixpoint split_char (sep : ascii) (s : string) : list string :=
  match s with
  | EmptyString => [EmptyString]
  | String c s' =>
    if Ascii.eqb c sep then EmptyString :: split_char sep s'
    else match split_char sep s' with
         | part :: parts => String c part :: parts
         | [] => [String c EmptyString]
         end
  end.

(** [sep.join(parts)] for a separator of one character. *)
Fixpoint join_char (sep : ascii) (parts : list string) : string :=
  match parts with
  | [] => EmptyString
  | [part] => part
  | part :: parts' => part ++ String sep (join_char sep parts')
  end.

(** [c in s] for a character [c]. *)
Fixpoint has_char (c : ascii) (s : string) : bool :=
  match s with
  | EmptyString => false
  | String c' s' => Ascii.eqb c' c || has_char c s'
  end.

(** [s.find(c)] for a character [c]: the index of its first occurrence,
    [None] for Python's [-1]. *)
Fixpoint find_char (c : ascii) (s : string) : option nat :=
  match s with
  | EmptyString => None
  | String c' s' =>
    if Ascii.eqb c' c then Some 0
    else match find_char c s' with
         | Some i => Some (S i)
         | None => None
         end
  end.

(** Text all of whose characters are ASCII. *)
Definition is_ascii (s : string) : bool :=
  forallb (fun b => (Byte.to_N b <? 128)%N) (list_byte_of_string s).

End PyMore.

(** ** The framed stream decoder ([SessionManager._decode_docker_stream]) *)

Module Codec.

(** [stream_type in (0, 1, 2)]. *)
Definition is_stream_type (b : byte) : bool :=
  match b with x00 | x01 | x02 => true | _ => false end.

(** [stream_type in (0, 1)]: stdin or stdout. *)
Definition is_stdin_or_stdout (b : byte) : bool :=
  match b with x00 | x01 => true | _ => false end.

(** The [while pos < len(raw)] loop.  [fuel] bounds the number of
    iterations; every iteration that continues advances [pos] by at least
    nine bytes, so [length raw - pos] iterations are never used up
    (lemma [decode_loop_fuel]). *)
Fixpoint decode_loop (fuel : nat) (raw : list byte) (pos : nat)
    (result : list string) : list string :=
  match fuel with
  | O => result
  | S fuel' =>
    if pos <? length raw then
      let fallback :=
        result ++ [Py.decode_utf8_replace (Py.slice_from raw pos)] in
      if pos + 8 <=? length raw then
        match raw !! pos with
        | Some stream_type =>
          if is_stream_type stream_type then
            let size := Py.from_bytes_big (Py.slice raw (pos + 4) (pos + 8)) in
            if ((N.of_nat pos + 8 + size <=? N.of_nat (length raw))
                && (0 <? size))%N then
              let payload := Py.slice raw (pos + 8) (pos + 8 + N.to_nat size) in
              let result' :=
                if is_stdin_or_stdout stream_type
                then result ++ [Py.decode_utf8_replace payload]
                else result in
              decode_loop fuel' raw (pos + 8 + N.to_nat size) result'
            else fallback
          else fallback
        | None => fallback
        end
      else fallback
    else result
  end.

Definition _decode_docker_stream (data : list byte) : string :=
  Py.join (decode_loop (length data) data 0 []).

End Codec.

(** ** Wire format: frames of the multiplexed attach stream *)

Module Frames.

(** One frame as it lies in the buffer: the stream-type byte, bytes 1-3,
    the four length bytes 4-7, and the payload. *)
Record frame := Frame {
  f_type : byte;
  f_pad : list byte;
  f_size : list byte;
  f_payload : list byte
}.

Definition frame_bytes (f : frame) : list byte :=
  f_type f :: f_pad f ++ f_size f ++ f_payload f.

(** First byte in {0,1,2}, bytes 4-7 the big-endian length of the payload
    that follows. *)
Definition well_formed (f : frame) : bool :=
  Codec.is_stream_type (f_type f)
  && (length (f_pad f) =? 3)
  && (length (f_size f) =? 4)
  && (Py.from_bytes_big (f_size f) =? N.of_nat (length (f_payload f)))%N.

Definition empty_payload (f : frame) : bool :=
  match f_payload f with [] => true | _ => false end.

(** The bytes of a sequence of frames, one after the other. *)
Definition stream_bytes (fs : list frame) : list byte :=
  concat (map frame_bytes fs).

(** What the decoder makes of one frame it accepts: the payload of a
    stdin (0) or stdout (1) frame as text, nothing for stderr (2). *)
Definition frame_text (f : frame) : string :=
  if Codec.is_stdin_or_stdout (f_type f)
  then Py.decode_utf8_replace (f_payload f)
  else "".

(** What the decoder makes of a sequence of well-formed frames: the texts
    of the frames up to the first one with an empty payload, then the rest
    of the buffer, headers included, as raw text. *)
Fixpoint stream_text (fs : list frame) : string :=
  match fs with
  | [] => ""
  | f :: fs' =>
    if empty_payload f
    then Py.decode_utf8_replace (stream_bytes fs)
    else frame_text f ++ stream_text fs'
  end.

(** The decode contract in the words of the specification: the
    concatenation of all complete stdout and stderr payloads. *)
Definition is_stdout_or_stderr (b : byte) : bool :=
  match b with x01 | x02 => true | _ => false end.

Definition spec_frame_text (f : frame) : string :=
  if is_stdout_or_stderr (f_type f)
  then Py.decode_utf8_replace (f_payload f)
  else "".

Definition spec_stream_text (fs : list frame) : string :=
  Py.join (map spec_frame_text fs).

(** A truncated frame: a non-empty proper prefix of the bytes of a
    well-formed frame. *)
Definition truncated (t : list byte) : Prop :=
  t <> [] /\
  exists f rest, well_formed f = true /\ rest <> [] /\ frame_bytes f = t ++ rest.

End Frames.

(** ** Reading from the attached socket: the loop of
    [SessionManager._read_from_stdout] *)

Module Channel.

(** What one turn of the read loop finds on the socket: [select] reports
    nothing within its sub-timeout, or [recv] returns [data] (empty when
    the peer has closed). *)
Inductive poll :=
| NotReady
| Ready (data : list byte).

Inductive read_result :=
| Line (line rest : string)
| TimeoutError
| ConnectionError.

(** The loop of [_read_from_stdout], up to its exit.  [polls] lists the
    turns that begin before the deadline; when it is exhausted,
    [remaining <= 0].  [Line line rest] is the exit through
    [line, rest = buf.split("\n", 1)]: what the method then does with
    [line] and [rest] is in [_read_from_stdout] below.  The other two are
    the exceptions the loop raises. *)
Fixpoint read_loop (polls : list poll) (buf : string) : read_result :=
  match polls with
  | [] => TimeoutError
  | p :: polls' =>
    match Py.split_newline buf with
    | Some (line, rest) => Line line rest
    | None =>
      match p with
      | NotReady => read_loop polls' buf
      | Ready [] => ConnectionError
      | Ready data => read_loop polls' (buf ++ Codec._decode_docker_stream data)
      end
    end
  end.

End Channel.

(** ** JSON values, exceptions and results *)

(** A value returned by [json.loads]. *)
#[local] Set Warnings "-register-all".
Inductive json :=
| JNull
| JBool (b : bool)
| JInt (z : Z)
| JFloat (f : PrimFloat.float)
| JStr (s : string)
| JList (items : list json)
| JDict (items : list (string * json)).

(** The exceptions of [alfworld.api.errors], and [PyError] for every other
    Python exception (its class name and its text). *)
Inductive exn :=
| SessionNotFound (session_id : string)
| SessionAlreadyDone (session_id : string)
| NoSlotsAvailable (max_sessions : nat)
| ContainerError (message : diagnostic)
| PyError (class text : string)

(** The message of a [ContainerError], by the f-string that builds it. *)
with diagnostic :=
| InitFailed (message : json)      (* f"Init failed: {message}" *)
| CreateFailed (cause : exn)       (* f"Failed to create session: {cause}" *)
| StepFailed (message : json).     (* the message itself *)

Inductive result (A : Type) :=
| Ok (a : A)
| Raise (e : exn).
Arguments Ok {A} a.
Arguments Raise {A} e.

(** The outcome of a call into Docker, the socket or [json]: a value, or an
    exception of the given class with the given text. *)
Inductive outcome (A : Type) :=
| Done (a : A)
| Fails (class text : string).
Arguments Done {A} a.
Arguments Fails {A} class text.

Definition is_container_error (e : exn) : bool :=
  match e with ContainerError _ => true | _ => false end.

Module Json.

(** [d[key]] lookup in the items of a dict. *)
Fixpoint lookup (items : list (string * json)) (key : string) : option json :=
  match items with
  | [] => None
  | (k, v) :: items' => if String.eqb k key then Some v else lookup items' key
  end.

(** [items.get(key, default)] on the items of a dict. *)
Definition get (items : list (string * json)) (key : string) (default : json)
    : json :=
  match lookup items key with Some v => v | None => default end.

(** The exception of [value.get] for a value that is not a dict. *)
Definition no_get : exn :=
  PyError "AttributeError" "object has no attribute 'get'".

(** [value == s] for a string [s]. *)
Definition eq_str (value : json) (s : string) : bool :=
  match value with JStr s' => String.eqb s' s | _ => false end.

(** Truth value of [value] in a condition. *)
Definition truthy (value : json) : bool :=
  match value with
  | JNull => false
  | JBool b => b
  | JInt z => negb (z =? 0)%Z
  | JFloat f => negb (PrimFloat.eqb f PrimFloat.zero)
  | JStr s => negb (String.eqb s "")
  | JList items => match items with [] => false | _ => true end
  | JDict items => match items with [] => false | _ => true end
  end.

End Json.

(** [TASK_TYPES] of [alfworld/api/models.py]. *)
Definition TASK_TYPES (task_type : Z) : option string :=
  match task_type with
  | 1 => Some "pick_and_place_simple"
  | 2 => Some "look_at_obj_in_light"
  | 3 => Some "pick_clean_then_place_in_recep"
  | 4 => Some "pick_heat_then_place_in_recep"
  | 5 => Some "pick_cool_then_place_in_recep"
  | 6 => Some "pick_two_obj_and_place"
  | _ => None
  end%Z.

(** ** [asyncio.Semaphore] *)

Module Semaphore.

(** The counter [_value].  No caller of this program ever waits on the
    semaphore, so the queue of waiters stays empty and is left out. *)
Record t := Make { _value : nat }.

Definition locked (s : t) : bool := _value s =? 0.

(** [await s.acquire()]: takes a permit at once when the semaphore is not
    locked; [None] when the caller would be suspended until a release. *)
Definition acquire (s : t) : option t :=
  if locked s then None else Some (Make (_value s - 1)).

Definition release (s : t) : t := Make (S (_value s)).

End Semaphore.

(** ** Sessions and the session manager *)

Definition Container := nat.
Definition Socket := nat.

(** The [Session] dataclass.  The annotations of [observation] and
    [admissible_commands] are not enforced: the fields hold whatever
    [response.get] returned.  Timestamps are microseconds.  The [lock]
    serialises concurrent exchanges and has no part in a sequential run. *)
Record Session := {
  session_id : string;
  container : Container;
  socket : Socket;
  game_file : string;
  observation : json;
  admissible_commands : json;
  status : string;
  created_at : Z;
  last_active_at : Z;
  _read_buffer : string
}.

Definition set_read_buffer (s : Session) (buf : string) : Session :=
  {| session_id := session_id s; container := container s; socket := socket s;
     game_file := game_file s; observation := observation s;
     admissible_commands := admissible_commands s; status := status s;
     created_at := created_at s; last_active_at := last_active_at s;
     _read_buffer := buf |}.

Definition set_observation (s : Session) (obs cmds : json) : Session :=
  {| session_id := session_id s; container := container s; socket := socket s;
     game_file := game_file s; observation := obs;
     admissible_commands := cmds; status := status s;
     created_at := created_at s; last_active_at := last_active_at s;
     _read_buffer := _read_buffer s |}.

Definition set_status (s : Session) (st : string) : Session :=
  {| session_id := session_id s; container := container s; socket := socket s;
     game_file := game_file s; observation := observation s;
     admissible_commands := admissible_commands s; status := st;
     created_at := created_at s; last_active_at := last_active_at s;
     _read_buffer := _read_buffer s |}.


(** The fields of [ServerConfig] the manager reads; [data_host_path] and
    [data_container_path] are the values of the properties of that name. *)
Record ServerConfig := {
  max_sessions : nat;
  idle_timeout_s : Z;
  data_host_path : string;
  data_container_path : string
}.

Record SessionManager := {
  config : ServerConfig;
  game_files : list string;
  _sessions : gmap string Session;
  _semaphore : Semaphore.t
}.

Definition set_sessions (sm : SessionManager) (m : gmap string Session)
    : SessionManager :=
  {| config := config sm; game_files := game_files sm;
     _sessions := m; _semaphore := _semaphore sm |}.

Definition set_semaphore (sm : SessionManager) (s : Semaphore.t)
    : SessionManager :=
  {| config := config sm; game_files := game_files sm;
     _sessions := _sessions sm; _semaphore := s |}.

(** [SessionManager.__init__]. *)
Definition new_manager (cfg : ServerConfig) (files : list string)
    : SessionManager :=
  {| config := cfg; game_files := files; _sessions := ∅;
     _semaphore := Semaphore.Make (max_sessions cfg) |}.

(** Permits taken and not yet given back. *)
Definition outstanding (sm : SessionManager) : Z :=
  Z.of_nat (max_sessions (config sm))
  - Z.of_nat (Semaphore._value (_semaphore sm)).

(** [active_session_count]: [len(self._sessions)]. *)
Definition active_session_count (sm : SessionManager) : nat :=
  size (_sessions sm).

(** Invariant 2 of the data model. *)
Definition permits_accounted (sm : SessionManager) : Prop :=
  outstanding sm = Z.of_nat (active_session_count sm).

(** ** The outside world *)

(** Calls the manager issues, in the order it issues them. *)
Inductive event :=
| DockerRun (session_id : string)
| DockerAttach (c : Container)
| SockSend (s : Socket) (command : json)
| DockerKill (c : Container).

(** What one exchange with a worker meets: the outcome of [sendall], the
    turns of the read loop, and [json.loads], the value it returns for a
    text or the exception it raises for it. *)
Record Wire := {
  sendall : outcome unit;
  polls : list Channel.poll;
  loads : string -> outcome json
}.

(** What one call of [create_session] meets. *)
Record CreateEnv := {
  env_random : nat;               (* the draw of [random.choice] *)
  env_uuid : string;              (* [str(uuid.uuid4())] *)
  env_created_at : Z;             (* [datetime.now] of [created_at] *)
  env_last_active_at : Z;         (* [datetime.now] of [last_active_at] *)
  env_run : outcome Container;    (* [docker_client.containers.run] *)
  env_attach : outcome Socket;    (* [container.attach_socket] *)
  env_init : Wire;                (* the init exchange *)
  env_kill : outcome unit         (* [container.kill] *)
}.

(** ** The worker channel ([send_command], [_send_command_sync]) *)

Definition communication_error (text : string) : json :=
  JDict [("status", JStr "error");
         ("message", JStr ("Communication error: " ++ text))].

(** [except json.JSONDecodeError]: the class of the exception caught. *)
Definition is_decode_error (class : string) : bool :=
  String.eqb class "JSONDecodeError".

(** [_extract_json_line]: the stripped line when it parses, else its part
    from the first brace on when that parses, else the stripped line.  An
    exception of [json.loads] other than [JSONDecodeError] is not caught. *)
Definition _extract_json_line (loads : string -> outcome json) (line : string)
    : result string :=
  let line := Py.strip line in
  match loads line with
  | Done _ => Ok line
  | Fails class text =>
    if negb (is_decode_error class) then Raise (PyError class text)
    else
      match PyMore.find_char "{"%char line with
      | Some start =>
        let candidate := Py.str_drop start line in
        match loads candidate with
        | Done _ => Ok candidate
        | Fails class' text' =>
          if is_decode_error class' then Ok line
          else Raise (PyError class' text')
        end
      | None => Ok line
      end
  end.

(** [_read_from_stdout] on the buffer [buf = session._read_buffer]: what
    the call returns or raises, and the text it has assigned to
    [session._read_buffer], if it has reached the assignment. *)
Definition _read_from_stdout (w : Wire) (buf : string)
    : result string * option string :=
  match Channel.read_loop (polls w) buf with
  | Channel.TimeoutError =>
    (Raise (PyError "TimeoutError" "Timeout reading from container"), None)
  | Channel.ConnectionError =>
    (Raise (PyError "ConnectionError" "Container closed connection"), None)
  | Channel.Line line rest => (_extract_json_line (loads w) line, Some rest)
  end.

(** [str(e)] for the exceptions the exchange can meet. *)
Definition exn_text (e : exn) : string :=
  match e with
  | PyError _ text => text
  | _ => ""
  end.

(** [_send_command_sync]: writes the command, reads one line and parses
    it; every exception inside the [try] becomes an error reply.  Returns
    the reply and the session with its [_read_buffer] as the read left
    it. *)
Definition _send_command_sync (session : Session) (command : json) (w : Wire)
    : json * Session * list event :=
  let sent := [SockSend (socket session) command] in
  match sendall w with
  | Fails _ text => (communication_error text, session, sent)
  | Done _ =>
    let '(read, assigned) := _read_from_stdout w (_read_buffer session) in
    let session' :=
      match assigned with
      | Some rest => set_read_buffer session rest
      | None => session
      end in
    match read with
    | Raise e => (communication_error (exn_text e), session', sent)
    | Ok response_line =>
      match loads w response_line with
      | Fails _ text => (communication_error text, session', sent)
      | Done response => (response, session', sent)
      end
    end
  end.

Definition send_command := _send_command_sync.

(** ** The session registry ([SessionManager]) *)

(** [get_session]. *)
Definition get_session (sm : SessionManager) (sid : string) : result Session :=
  match _sessions sm !! sid with
  | None => Raise (SessionNotFound sid)
  | Some session => Ok session
  end.

(** [random.choice(seq)] with the draw [r] of the random source. *)
Definition random_choice (r : nat) (seq : list string) : result string :=
  match seq with
  | [] => Raise (PyError "IndexError" "Cannot choose from an empty sequence")
  | g :: _ => Ok (nth (r mod length seq) seq g)
  end.

(** The candidates of lines 80-87 of [create_session]. *)
Definition candidates (files : list string) (task_type : option Z)
    : list string :=
  match task_type with
  | Some t =>
    match TASK_TYPES t with
    | Some task_name =>
      match List.filter (fun g => Py.contains task_name g) files with
      | [] => files
      | filtered => filtered
      end
    | None => files
    end
  | None => files
  end.

(** "Pick game file", lines 79-88. *)
Definition pick_game_file (files : list string) (game_file : option string)
    (task_type : option Z) (r : nat) : result string :=
  match game_file with
  | Some g => Ok g
  | None => random_choice r (candidates files task_type)
  end.

(** [_to_container_path]. *)
Definition _to_container_path (cfg : ServerConfig) (host_path : string) : string :=
  if Py.startswith host_path (data_host_path cfg)
  then data_container_path cfg
       ++ Py.str_drop (String.length (data_host_path cfg)) host_path
  else host_path.

(** [_kill_container]: an exception of [container.kill] is swallowed. *)
Definition _kill_container (c : Container) (kill : outcome unit) : list event :=
  [DockerKill c].

Definition release_permit (sm : SessionManager) : SessionManager :=
  set_semaphore sm (Semaphore.release (_semaphore sm)).

(** The body of the [try] of [create_session], lines 78-131: the result,
    the manager as the body left it, and the calls issued. *)
Definition create_session_body (sm : SessionManager)
    (game_file : option string) (task_type : option Z) (env : CreateEnv)
    : result Session * SessionManager * list event :=
  match pick_game_file (game_files sm) game_file task_type (env_random env) with
  | Raise e => (Raise e, sm, [])
  | Ok game_file =>
    let sid := env_uuid env in
    match env_run env with
    | Fails class text => (Raise (PyError class text), sm, [DockerRun sid])
    | Done container =>
      match env_attach env with
      | Fails class text =>
        (Raise (PyError class text), sm, [DockerRun sid; DockerAttach container])
      | Done socket =>
        let session :=
          {| session_id := sid; container := container; socket := socket;
             game_file := game_file; observation := JStr "";
             admissible_commands := JList []; status := "active";
             created_at := env_created_at env;
             last_active_at := env_last_active_at env;
             _read_buffer := "" |} in
        let sm1 := set_sessions sm (<[sid := session]> (_sessions sm)) in
        let container_game_file := _to_container_path (config sm) game_file in
        let init_cmd :=
          JDict [("cmd", JStr "init"); ("game_file", JStr container_game_file)] in
        let '(response, session1, sent) :=
          send_command session init_cmd (env_init env) in
        (* the session object is the one held by the map *)
        let sm2 := set_sessions sm1 (<[sid := session1]> (_sessions sm1)) in
        let trace := [DockerRun sid; DockerAttach container] ++ sent in
        match response with
        | JDict items =>
          if negb (Json.eq_str (Json.get items "status" JNull) "ok") then
            let killed := _kill_container container (env_kill env) in
            let sm3 := set_sessions sm2 (delete sid (_sessions sm2)) in
            let sm4 := release_permit sm3 in
            let message := Json.get items "message" (JStr "unknown error") in
            (Raise (ContainerError (InitFailed message)), sm4, trace ++ killed)
          else
            let session2 :=
              set_observation session1
                (Json.get items "observation" (JStr ""))
                (Json.get items "admissible_commands" (JList [])) in
            (Ok session2,
             set_sessions sm2 (<[sid := session2]> (_sessions sm2)),
             trace)
        | _ => (Raise Json.no_get, sm2, trace)
        end
      end
    end
  end.

(** [create_session].  [None] stands for a call that is suspended in
    [acquire] and never returns. *)
Definition create_session (sm : SessionManager)
    (game_file : option string) (task_type : option Z) (env : CreateEnv)
    : option (result Session * SessionManager * list event) :=
  let acquired := 0 <? Semaphore._value (_semaphore sm) in
  if negb acquired then
    Some (Raise (NoSlotsAvailable (max_sessions (config sm))), sm, [])
  else
    match Semaphore.acquire (_semaphore sm) with
    | None => None
    | Some sem =>
      match create_session_body (set_semaphore sm sem) game_file task_type env with
      | (Raise (NoSlotsAvailable n), sm', trace) =>
        Some (Raise (NoSlotsAvailable n), sm', trace)
      | (Raise (ContainerError d), sm', trace) =>
        Some (Raise (ContainerError d), sm', trace)
      | (Raise e, sm', trace) =>
        Some (Raise (ContainerError (CreateFailed e)), release_permit sm', trace)
      | (Ok session, sm', trace) => Some (Ok session, sm', trace)
      end
    end.

(** [delete_session]: [kill] gives the outcome of [container.kill] for
    each container. *)
Definition delete_session (sm : SessionManager) (sid : string)
    (kill : Container -> outcome unit)
    : result unit * SessionManager * list event :=
  match _sessions sm !! sid with
  | None => (Raise (SessionNotFound sid), sm, [])
  | Some session =>
    let sm1 := set_sessions sm (delete sid (_sessions sm)) in
    let killed := _kill_container (container session) (kill (container session)) in
    (Ok tt, release_permit sm1, killed)
  end.

(** The loop shared by [delete_all_sessions], the reaper and [shutdown]:
    [delete_session] for each id, exceptions swallowed; returns the ids
    deleted. *)
Fixpoint delete_each (sm : SessionManager) (ids : list string)
    (kill : Container -> outcome unit)
    : list string * SessionManager * list event :=
  match ids with
  | [] => ([], sm, [])
  | sid :: ids' =>
    match delete_session sm sid kill with
    | (Ok _, sm1, tr1) =>
      let '(deleted, sm2, tr2) := delete_each sm1 ids' kill in
      (sid :: deleted, sm2, tr1 ++ tr2)
    | (Raise _, sm1, tr1) =>
      let '(deleted, sm2, tr2) := delete_each sm1 ids' kill in
      (deleted, sm2, tr1 ++ tr2)
    end
  end.

(** [list(self._sessions.keys())].  Python lists the keys in insertion
    order; the map lists them in its own order. *)
Definition session_keys (sm : SessionManager) : list string :=
  (map_to_list (_sessions sm)).*1.

(** [delete_all_sessions]. *)
Definition delete_all_sessions (sm : SessionManager)
    (kill : Container -> outcome unit)
    : list string * SessionManager * list event :=
  delete_each sm (session_keys sm) kill.

(** One sweep of [_cleanup_loop] at time [now]. *)
Definition cleanup_sweep (sm : SessionManager) (now : Z)
    (kill : Container -> outcome unit) : SessionManager * list event :=
  let to_remove :=
    (List.filter
       (fun kv : string * Session =>
          (idle_timeout_s (config sm) * 1000000 <? now - last_active_at (snd kv))%Z)
       (map_to_list (_sessions sm))).*1 in
  let '(_, sm', trace) := delete_each sm to_remove kill in
  (sm', trace).

(** [shutdown], after the reaper task is cancelled. *)
Definition shutdown (sm : SessionManager) (kill : Container -> outcome unit)
    : SessionManager * list event :=
  let '(_, sm', trace) := delete_each sm (session_keys sm) kill in
  (sm', trace).

(** ** The batch coordinator *)

(** What one step meets: the clock and the exchange with the worker. *)
Record StepEnv := {
  step_now : Z;
  step_wire : Wire
}.



(** ** The endpoint handlers ([alfworld/api/routes.py]) *)

(** ** The response models ([alfworld/api/models.py]) *)

Module Pydantic.

(** What the validation of a field makes of a text offered where a number
    or a boolean is declared, and of a boolean offered where a number is
    declared: the value it converts to, or [None] when it is refused. *)
Record Lax := {
  float_of_str : string -> option PrimFloat.float;
  bool_of_str : string -> option bool;
  float_of_bool : bool -> option PrimFloat.float
}.

(** [float(z)]: the nearest double, ties to even; [None] when it
    overflows. *)
Definition float_of_int (z : Z) : option PrimFloat.float :=
  match SpecFloat.binary_normalize FloatOps.prec FloatOps.emax z 0 false with
  | SpecFloat.S754_infinity _ => None
  | sf => Some (FloatOps.SF2Prim sf)
  end.

(** A field declared [str]: a string and nothing else. *)
Definition validate_str (v : json) : option string :=
  match v with
  | JStr s => Some s
  | _ => None
  end.

Fixpoint validate_strs (items : list json) : option (list string) :=
  match items with
  | [] => Some []
  | item :: items' =>
    match validate_str item, validate_strs items' with
    | Some s, Some ss => Some (s :: ss)
    | _, _ => None
    end
  end.

(** A field declared [List[str]]: a list all of whose items are strings. *)
Definition validate_list_str (v : json) : option (list string) :=
  match v with
  | JList items => validate_strs items
  | _ => None
  end.

(** A field declared [float]: a float as it is, an integer converted. *)
Definition validate_float (lax : Lax) (v : json) : option PrimFloat.float :=
  match v with
  | JFloat f => Some f
  | JInt z => float_of_int z
  | JBool b => float_of_bool lax b
  | JStr s => float_of_str lax s
  | _ => None
  end.

(** A field declared [bool]: a boolean as it is, the numbers 0 and 1. *)
Definition validate_bool (lax : Lax) (v : json) : option bool :=
  match v with
  | JBool b => Some b
  | JInt 0 => Some false
  | JInt 1 => Some true
  | JFloat f =>
    if PrimFloat.eqb f PrimFloat.zero then Some false
    else if PrimFloat.eqb f PrimFloat.one then Some true
    else None
  | JStr s => bool_of_str lax s
  | _ => None
  end.

(** The [ValidationError] raised by the constructor of [model]. *)
Definition validation_error (model : string) : exn :=
  PyError "ValidationError" model.

End Pydantic.

(** [StepResponse] and [SessionResponse], with the fields as declared. *)
Record StepResponse := {
  sr_session_id : string;
  sr_observation : string;
  sr_score : PrimFloat.float;
  sr_done : bool;
  sr_won : bool;
  sr_admissible_commands : list string
}.

Record SessionResponse := {
  resp_session_id : string;
  resp_game_file : string;
  resp_observation : string;
  resp_admissible_commands : list string;
  resp_status : string;
  resp_created_at : Z;
  resp_last_active_at : Z
}.

(** [StepResponse(session_id=..., observation=..., score=..., done=...,
    won=..., admissible_commands=...)]: the fields are validated against
    their declarations, and the constructor raises when one is refused. *)
Definition new_StepResponse (lax : Pydantic.Lax) (session_id : string)
    (observation score done won admissible_commands : json)
    : result StepResponse :=
  match Pydantic.validate_str observation,
        Pydantic.validate_float lax score,
        Pydantic.validate_bool lax done,
        Pydantic.validate_bool lax won,
        Pydantic.validate_list_str admissible_commands with
  | Some observation', Some score', Some done', Some won', Some commands =>
    Ok {| sr_session_id := session_id;
          sr_observation := observation';
          sr_score := score';
          sr_done := done';
          sr_won := won';
          sr_admissible_commands := commands |}
  | _, _, _, _, _ => Raise (Pydantic.validation_error "StepResponse")
  end.

(** [SessionResponse(session_id=session.session_id, ...)], as the create
    and the get handlers build it from a session. *)
Definition session_response (session : Session) : result SessionResponse :=
  match Pydantic.validate_str (observation session),
        Pydantic.validate_list_str (admissible_commands session) with
  | Some observation', Some commands =>
    Ok {| resp_session_id := session_id session;
          resp_game_file := game_file session;
          resp_observation := observation';
          resp_admissible_commands := commands;
          resp_status := status session;
          resp_created_at := created_at session;
          resp_last_active_at := last_active_at session |}
  | _, _ => Raise (Pydantic.validation_error "SessionResponse")
  end.

(** ** The endpoint handlers ([alfworld/api/routes.py]) *)

(** A batch coordinator, [request.app.state.batcher]: [submit_step] on
    the session object the map holds under [sid], returning the reply, the
    session object and the manager as the call leaves them. *)
Definition Coordinator : Type :=
  SessionManager -> string -> Session -> string -> StepEnv
  -> json * Session * SessionManager * list event.

Module Routes.

(** [POST /sessions/{session_id}/step]. *)
Definition step_session (batcher : Coordinator) (lax : Pydantic.Lax)
    (sm : SessionManager) (sid : string) (action : string) (env : StepEnv)
    : result StepResponse * SessionManager * list event :=
  match get_session sm sid with
  | Raise e => (Raise e, sm, [])
  | Ok session =>
    if String.eqb (status session) "done" then
      (Raise (SessionAlreadyDone sid), sm, [])
    else
      let '(result, session1, sm1, trace) :=
        batcher sm sid session action env in
      match result with
      | JDict items =>
        if negb (Json.eq_str (Json.get items "status" JNull) "ok") then
          let message := Json.get items "message" (JStr "Step failed") in
          (Raise (ContainerError (StepFailed message)), sm1, trace)
        else
          let done := Json.get items "done" (JBool false) in
          let sm2 :=
            if Json.truthy done
            then set_sessions sm1
                   (<[sid := set_status session1 "done"]> (_sessions sm1))
            else sm1 in
          (new_StepResponse lax sid
             (Json.get items "observation" (JStr ""))
             (Json.get items "score" (JFloat PrimFloat.zero))
             done
             (Json.get items "won" (JBool false))
             (Json.get items "admissible_commands" (JList [])),
           sm2, trace)
      | _ => (Raise Json.no_get, sm1, trace)
      end
  end.

(** [GET /sessions/{session_id}]. *)
Definition get_session (sm : SessionManager) (sid : string)
    : result SessionResponse :=
  match get_session sm sid with
  | Raise e => Raise e
  | Ok session => session_response session
  end.

(** [DELETE /sessions/{session_id}]. *)
Definition delete_session (sm : SessionManager) (sid : string)
    (kill : Container -> outcome unit)
    : result json * SessionManager * list event :=
  match delete_session sm sid kill with
  | (Raise e, sm', trace) => (Raise e, sm', trace)
  | (Ok _, sm', trace) =>
    (Ok (JDict [("status", JStr "ok"); ("session_id", JStr sid)]), sm', trace)
  end.

End Routes.


(** The public operations of the registry, each with what it meets. *)
Inductive operation :=
| CreateSession (game_file : option string) (task_type : option Z) (env : CreateEnv)
| DeleteSession (sid : string) (kill : Container -> outcome unit)
| DeleteAllSessions (kill : Container -> outcome unit)
| ReaperSweep (now : Z) (kill : Container -> outcome unit)
| Shutdown (kill : Container -> outcome unit).

(** The manager after a completed operation; [None] when the operation does
    not complete. *)
Definition run_operation (sm : SessionManager) (op : operation)
    : option SessionManager :=
  match op with
  | CreateSession game_file task_type env =>
    match create_session sm game_file task_type env with
    | Some (_, sm', _) => Some sm'
    | None => None
    end
  | DeleteSession sid kill => Some (delete_session sm sid kill).1.2
  | DeleteAllSessions kill => Some (delete_all_sessions sm kill).1.2
  | ReaperSweep now kill => Some (cleanup_sweep sm now kill).1
  | Shutdown kill => Some (shutdown sm kill).1
  end.

(** A [create_session] that meets a fresh id and whose init reply, when the
    exchange is reached, is a JSON object. *)
Definition create_well_behaved (sm : SessionManager) (op : operation) : Prop :=
  match op with
  | CreateSession game_file task_type env =>
    _sessions sm !! env_uuid env = None
    /\ forall r sm' trace,
         create_session sm game_file task_type env = Some (r, sm', trace) ->
         r <> Raise (ContainerError (CreateFailed Json.no_get))
  | _ => True
  end.

(** The ways the body of the [try] ends. *)
Inductive body_end (sm : SessionManager) (sid : string)
    : result Session -> SessionManager -> Prop :=
| EndBeforeInsert class text :
    body_end sm sid (Raise (PyError class text)) sm
| EndNoGet session :
    body_end sm sid (Raise Json.no_get)
      (set_sessions sm (<[sid := session]> (_sessions sm)))
| EndInitFailed message :
    body_end sm sid (Raise (ContainerError (InitFailed message)))
      (release_permit (set_sessions sm (delete sid (_sessions sm))))
| EndOk session :
    body_end sm sid (Ok session)
      (set_sessions sm (<[sid := session]> (_sessions sm))).

(** ** Sample inputs *)

Module Samples.
Import Frames.

(** A stdout frame carrying "hi". *)
Definition stdout_hi : frame :=
  Frame x01 [x00; x00; x00] [x00; x00; x00; x02] [x68; x69].

(** A stderr frame carrying "no". *)
Definition stderr_no : frame :=
  Frame x02 [x00; x00; x00] [x00; x00; x00; x02] [x6e; x6f].

(** A stdin frame carrying "in". *)
Definition stdin_in : frame :=
  Frame x00 [x00; x00; x00] [x00; x00; x00; x02] [x69; x6e].

(** A stdout frame with an empty payload. *)
Definition stdout_empty : frame :=
  Frame x01 [x00; x00; x00] [x00; x00; x00; x00] [].

(** A stdout frame declaring four bytes, and its first ten bytes: the
    header and two bytes of payload. *)
Definition stdout_abcd : frame :=
  Frame x01 [x00; x00; x00] [x00; x00; x00; x04] [x61; x62; x63; x64].

Definition cut_abcd : list byte :=
  [x01; x00; x00; x00; x00; x00; x00; x04; x61; x62].

End Samples.

Module World.

Definition cfg : ServerConfig :=
  {| max_sessions := 1; idle_timeout_s := 600;
     data_host_path := "/home/u/.cache/alfworld";
     data_container_path := "/data" |}.

Definition files : list string :=
  ["/home/u/.cache/alfworld/pick_and_place_simple-Book/trial_1/game.tw-pddl";
   "/home/u/.cache/alfworld/look_at_obj_in_light-Mug/trial_2/game.tw-pddl"].

(** A manager as [__init__] leaves it, and one with no game files. *)
Definition manager : SessionManager := new_manager cfg files.
Definition manager_no_games : SessionManager := new_manager cfg [].

Definition sid : string := "0b7e6c1a-5d2f-4c8e-9a61-3f0d2b9c7e15".

(** A worker whose reply line parses to [reply]: the line arrives
    unframed in one chunk, and is found in the buffer at the next turn of
    the read loop. *)
Definition wire (chunk : list byte) (reply : json) : Wire :=
  {| sendall := Done tt;
     polls := [Channel.Ready chunk; Channel.NotReady];
     loads := fun _ => Done reply |}.

Definition reply_ok : json :=
  JDict [("status", JStr "ok");
         ("observation", JStr "You are in the middle of a room.");
         ("admissible_commands", JList [JStr "look"; JStr "go to desk 1"])].


(** The line [{}] followed by a newline. *)
Definition chunk_braces : list byte := [x7b; x7d; x0a].

(** The line [1] followed by a newline. *)
Definition chunk_one : list byte := [x31; x0a].

Definition env (attach : outcome Socket) (init : Wire) : CreateEnv :=
  {| env_random := 0; env_uuid := sid;
     env_created_at := 1000; env_last_active_at := 1001;
     env_run := Done 7; env_attach := attach;
     env_init := init; env_kill := Done tt |}.

(** Start, attach and init succeed. *)
Definition env_ok : CreateEnv := env (Done 70) (wire chunk_braces reply_ok).

(** The container starts and the attach raises. *)
Definition env_attach_fails : CreateEnv :=
  env (Fails "APIError" "500 Server Error") (wire chunk_braces reply_ok).

(** The worker answers the init command with the line [1]. *)
Definition env_reply_one : CreateEnv :=
  env (Done 70) (wire chunk_one (JInt 1)).

Definition kill_ok (c : Container) : outcome unit := Done tt.

(** A session that has reached [done], alone in a manager with its permit
    taken. *)
Definition session_done : Session :=
  {| session_id := sid; container := 7; socket := 70;
     game_file := "/home/u/.cache/alfworld/pick_and_place_simple-Book/trial_1/game.tw-pddl";
     observation := JStr "You put the book on the desk.";
     admissible_commands := JList [JStr "look"]; status := "done";
     created_at := 1000; last_active_at := 2000; _read_buffer := "" |}.

(** The same session while it is active. *)
Definition session_active : Session :=
  {| session_id := sid; container := 7; socket := 70;
     game_file := "/home/u/.cache/alfworld/pick_and_place_simple-Book/trial_1/game.tw-pddl";
     observation := JStr "You are in the middle of a room.";
     admissible_commands := JList [JStr "look"; JStr "go to desk 1"];
     status := "active";
     created_at := 1000; last_active_at := 1001; _read_buffer := "" |}.

Definition manager_with (s : Session) : SessionManager :=
  {| config := cfg; game_files := files;
     _sessions := {[ sid := s ]}; _semaphore := Semaphore.Make 0 |}.


(** A validation that refuses every text offered for a number or a
    boolean and takes a boolean offered for a number as 0.0 or 1.0; no
    sample reply offers either. *)
Definition lax : Pydantic.Lax :=
  {| Pydantic.float_of_str := fun _ => None;
     Pydantic.bool_of_str := fun _ => None;
     Pydantic.float_of_bool :=
       fun b => Some (if b then PrimFloat.one else PrimFloat.zero) |}.

End World.

(** * The rest of the code *)

(** ** The sending side of the attach stream

    The frame the Docker daemon writes for a payload, as the docstring of
    [_decode_docker_stream] lays it out:
    [[stream_type(1), 0, 0, 0, size(4)]] followed by the payload. *)
Definition docker_frame (stream_type : byte) (payload : list byte)
    : Frames.frame :=
  Frames.Frame stream_type [x00; x00; x00]
    (PyMore.to_bytes_big4 (N.of_nat (length payload))) payload.

(** The text a turn of the read loop adds to the buffer. *)
Definition poll_text (p : Channel.poll) : string :=
  match p with
  | Channel.NotReady => ""
  | Channel.Ready data => Codec._decode_docker_stream data
  end.

(** ** [ServerConfig] ([alfworld/api/config.py]): the data volume *)

Module Config.

Definition colon : ascii := ":"%char.

(** The validator [expand_data_volume]; [expanduser p] stands for
    [str(Path(p).expanduser())]. *)
Definition expand_data_volume (expanduser : string -> string) (v : string)
    : string :=
  if PyMore.has_char colon v then
    match PyMore.split_char colon v with
    | part0 :: parts => PyMore.join_char colon (expanduser part0 :: parts)
    | [] => v
    end
  else expanduser v.

(** The property [data_host_path]. *)
Definition data_host_path (data_volume : string) : string :=
  match PyMore.split_char colon data_volume with
  | part0 :: _ => part0
  | [] => ""
  end.

(** The property [data_container_path]. *)
Definition data_container_path (data_volume : string) : string :=
  match PyMore.split_char colon data_volume with
  | _ :: part1 :: _ => part1
  | _ => "/data"
  end.

(** The property [data_volume_mode]. *)
Definition data_volume_mode (data_volume : string) : string :=
  match PyMore.split_char colon data_volume with
  | _ :: _ :: part2 :: _ => part2
  | _ => "ro"
  end.

End Config.

(** ** Further endpoint handlers ([alfworld/api/routes.py]) *)

Record HealthResponse := {
  health_status : string;
  health_active_sessions : nat;
  health_max_sessions : nat;
  health_available_games : nat
}.

Module RoutesMore.

(** [POST /sessions]. *)
Definition create_session (sm : SessionManager)
    (game_file : option string) (task_type : option Z) (env : CreateEnv)
    : option (result SessionResponse * SessionManager * list event) :=
  match create_session sm game_file task_type env with
  | None => None
  | Some (Raise e, sm', trace) => Some (Raise e, sm', trace)
  | Some (Ok session, sm', trace) => Some (session_response session, sm', trace)
  end.

(** [DELETE /sessions]. *)
Definition delete_all_sessions (sm : SessionManager)
    (kill : Container -> outcome unit) : json * SessionManager * list event :=
  let '(deleted, sm', trace) := delete_all_sessions sm kill in
  (JDict [("status", JStr "ok");
          ("deleted", JList (map JStr deleted));
          ("count", JInt (Z.of_nat (length deleted)))],
   sm', trace).

(** [GET /health]; [game_files] is [app.state.game_files], the list the
    manager was built with. *)
Definition health_check (sm : SessionManager) : HealthResponse :=
  {| health_status := "ok";
     health_active_sessions := active_session_count sm;
     health_max_sessions := max_sessions (config sm);
     health_available_games := length (game_files sm) |}.

End RoutesMore.

(** A sequence of operations, one after the other; [None] when one of them
    does not complete. *)
Fixpoint run_operations (sm : SessionManager) (ops : list operation)
    : option SessionManager :=
  match ops with
  | [] => Some sm
  | op :: ops' =>
    match run_operation sm op with
    | Some sm' => run_operations sm' ops'
    | None => None
    end
  end.

(** Every [create_session] of the sequence meets a fresh id and an init
    reply that is an object. *)
Fixpoint all_well_behaved (sm : SessionManager) (ops : list operation) : Prop :=
  match ops with
  | [] => True
  | op :: ops' =>
    create_well_behaved sm op
    /\ forall sm', run_operation sm op = Some sm' -> all_well_behaved sm' ops'
  end.

(** The kill issued for each of [ids] that is in the map [m], in order. *)
Definition kill_events (m : gmap string Session) (ids : list string)
    : list event :=
  omap (fun sid => (fun s => DockerKill (container s)) <$> (m !! sid)) ids.

(** A session is idle at [now]: its last activity is more than
    [idle_timeout_s] seconds back. *)
Definition is_idle (cfg : ServerConfig) (now : Z) (s : Session) : bool :=
  (idle_timeout_s cfg * 1000000 <? now - last_active_at s)%Z.

(** The session [create_session] builds before the init exchange, and the
    init command it sends. *)
Definition fresh_session (env : CreateEnv) (c : Container) (sock : Socket)
    (g : string) : Session :=
  {| session_id := env_uuid env; container := c; socket := sock;
     game_file := g; observation := JStr "";
     admissible_commands := JList []; status := "active";
     created_at := env_created_at env;
     last_active_at := env_last_active_at env; _read_buffer := "" |}.

Definition init_command (sm : SessionManager) (g : string) : json :=
  JDict [("cmd", JStr "init");
         ("game_file", JStr (_to_container_path (config sm) g))].

(** A text the daemon can frame and the decoder takes as a frame: ASCII,
    not empty, shorter than [2**32] bytes. *)
Definition frameable (s : string) : Prop :=
  PyMore.is_ascii s = true /\ s <> "" /\
  (N.of_nat (String.length s) < 4294967296)%N.

Definition newline : string := String "010"%char EmptyString.

(** The text of a run of turns of the read loop. *)
Definition polls_text (ps : list Channel.poll) : string :=
  Py.join (map poll_text ps).

(** ** More sample inputs *)

Module Cases.

Definition reply_error : json :=
  JDict [("status", JStr "error"); ("message", JStr "Game file not found")].

(** The worker rejects the init command. *)
Definition env_init_error : CreateEnv :=
  World.env (Done 70) (World.wire World.chunk_braces reply_error).

(** [containers.run] raises. *)
Definition env_run_fails : CreateEnv :=
  {| env_random := 0; env_uuid := World.sid;
     env_created_at := 1000; env_last_active_at := 1001;
     env_run := Fails "ImageNotFound" "No such image";
     env_attach := Done 70;
     env_init := World.wire World.chunk_braces World.reply_ok;
     env_kill := Done tt |}.

Definition sid2 : string := "7c1d9e40-2a6b-4f3e-8d55-91b0a4e6c2f8".

(** A second session, last active at time 5000. *)
Definition session_two : Session :=
  {| session_id := sid2; container := 8; socket := 80;
     game_file := "/home/u/.cache/alfworld/look_at_obj_in_light-Mug/trial_2/game.tw-pddl";
     observation := JStr "You are in the middle of a room.";
     admissible_commands := JList [JStr "look"]; status := "active";
     created_at := 4000; last_active_at := 5000; _read_buffer := "" |}.

Definition cfg2 : ServerConfig :=
  {| max_sessions := 2; idle_timeout_s := 600;
     data_host_path := "/home/u/.cache/alfworld";
     data_container_path := "/data" |}.

(** A full manager of two sessions. *)
Definition manager_two : SessionManager :=
  {| config := cfg2; game_files := World.files;
     _sessions := <[World.sid := World.session_active]> {[ sid2 := session_two ]};
     _semaphore := Semaphore.Make 0 |}.



(** [json.loads] on the texts of a sample line: it takes the text [{}]
    and refuses the others as malformed. *)
Definition loads_braces (text : string) : outcome json :=
  if String.eqb text "{}" then Done (JDict [])
  else Fails "JSONDecodeError" "Expecting value".


End Cases.

(** * Properties *)

Section StringFacts.

Lemma append_nil_r (s : string) : (s ++ "")%string = s.
Proof.
  induction s as [|c s IH]; [reflexivity|].
  change (String c (s ++ "")%string = String c s). now rewrite IH.
Qed.

Lemma append_assoc (a b c : string) :
  ((a ++ b) ++ c)%string = (a ++ (b ++ c))%string.
Proof.
  induction a as [|x a IH]; [reflexivity|].
  change (String x ((a ++ b) ++ c)%string = String x (a ++ (b ++ c))%string).
  now rewrite IH.
Qed.

Lemma join_snoc (parts : list string) (s : string) :
  Py.join (parts ++ [s]) = (Py.join parts ++ s)%string.
Proof.
  induction parts as [|p parts IH].
  - change ((s ++ "")%string = s). apply append_nil_r.
  - cbn [app Py.join fold_right]. fold (Py.join (parts ++ [s])).
    fold (Py.join parts). rewrite IH. symmetry. apply append_assoc.
Qed.

End StringFacts.

Module CodecFacts.
Import Codec Frames.

(** The loop never uses up [length raw - pos] turns. *)
Lemma decode_loop_fuel (f1 : nat) :
  forall f2 raw pos result,
    length raw - pos <= f1 -> length raw - pos <= f2 ->
    decode_loop f1 raw pos result = decode_loop f2 raw pos result.
Proof.
  induction f1 as [|f1 IH]; intros f2 raw pos result H1 H2.
  - destruct f2 as [|f2]; [reflexivity|]. simpl.
    destruct (Nat.ltb_spec pos (length raw)); [lia | reflexivity].
  - destruct f2 as [|f2]; simpl.
    + destruct (Nat.ltb_spec pos (length raw)); [lia | reflexivity].
    + destruct (Nat.ltb_spec pos (length raw)); [|reflexivity].
      destruct (pos + 8 <=? length raw); [|reflexivity].
      destruct (raw !! pos) as [st|]; [|reflexivity].
      destruct (is_stream_type st); [|reflexivity].
      match goal with |- context [if ?c then _ else _] => destruct c end;
        [|reflexivity].
      apply IH; lia.
Qed.

(** The header of a well-formed frame, laid out. *)
Lemma well_formed_layout (f : frame) :
  well_formed f = true ->
  exists p1 p2 p3 s1 s2 s3 s4,
    f_pad f = [p1; p2; p3] /\ f_size f = [s1; s2; s3; s4] /\
    is_stream_type (f_type f) = true /\
    Py.from_bytes_big (f_size f) = N.of_nat (length (f_payload f)).
Proof.
  unfold well_formed. intros H.
  repeat (apply andb_prop in H; destruct H as [H ?]).
  destruct (f_pad f) as [|p1 [|p2 [|p3 [|]]]]; try discriminate.
  destruct (f_size f) as [|s1 [|s2 [|s3 [|s4 [|]]]]] eqn:Hs; try discriminate.
  exists p1, p2, p3, s1, s2, s3, s4.
  repeat split; try assumption. now apply N.eqb_eq.
Qed.

Lemma frame_bytes_length (f : frame) :
  well_formed f = true -> length (frame_bytes f) = 8 + length (f_payload f).
Proof.
  intros H. destruct (well_formed_layout f H)
    as (p1 & p2 & p3 & s1 & s2 & s3 & s4 & Hp & Hs & _ & _).
  unfold frame_bytes. rewrite Hp, Hs. simpl. lia.
Qed.

(** The pieces the loop reads at [pos = length pre] when the bytes there
    are [hd :: p1 :: p2 :: p3 :: s1 :: s2 :: s3 :: s4 :: tail]. *)
Lemma peek_type (pre tail : list byte) (hd : byte) :
  (pre ++ hd :: tail) !! length pre = Some hd.
Proof. now rewrite list_lookup_middle. Qed.

Lemma peek_size (pre tail : list byte) (hd p1 p2 p3 s1 s2 s3 s4 : byte) :
  Py.slice (pre ++ hd :: p1 :: p2 :: p3 :: s1 :: s2 :: s3 :: s4 :: tail)
           (length pre + 4) (length pre + 8) = [s1; s2; s3; s4].
Proof.
  unfold Py.slice. rewrite drop_app_add.
  replace (length pre + 8 - (length pre + 4)) with 4 by lia. reflexivity.
Qed.

Lemma peek_payload (pre payload post : list byte)
    (hd p1 p2 p3 s1 s2 s3 s4 : byte) :
  Py.slice (pre ++ hd :: p1 :: p2 :: p3 :: s1 :: s2 :: s3 :: s4 :: payload ++ post)
           (length pre + 8) (length pre + 8 + length payload) = payload.
Proof.
  unfold Py.slice. rewrite drop_app_add.
  replace (length pre + 8 + length payload - (length pre + 8))
    with (length payload) by lia.
  simpl. apply take_app_length.
Qed.

(** One turn of the loop over a well-formed frame with a payload. *)
Lemma decode_loop_frame (f : frame) (pre post : list byte)
    (fuel : nat) (result : list string) :
  well_formed f = true -> empty_payload f = false ->
  decode_loop (S fuel) (pre ++ frame_bytes f ++ post) (length pre) result
  = decode_loop fuel (pre ++ frame_bytes f ++ post)
      (length (pre ++ frame_bytes f))
      (if is_stdin_or_stdout (f_type f)
       then result ++ [Py.decode_utf8_replace (f_payload f)]
       else result).
Proof.
  intros Hwf Hne.
  destruct (well_formed_layout f Hwf)
    as (p1 & p2 & p3 & s1 & s2 & s3 & s4 & Hp & Hs & Hty & Hlen).
  assert (Hpay : length (f_payload f) <> 0).
  { unfold empty_payload in Hne. destruct (f_payload f); [discriminate | simpl; lia]. }
  rewrite length_app, (frame_bytes_length f Hwf).
  unfold frame_bytes. rewrite Hp, Hs in *. cbn [app].
  set (raw := pre ++ _).
  assert (Hraw : length raw = length pre + 8 + length (f_payload f) + length post).
  { unfold raw. rewrite length_app. cbn [length]. rewrite length_app. lia. }
  assert (Hty' : raw !! length pre = Some (f_type f)) by apply peek_type.
  assert (Hsz : Py.from_bytes_big (Py.slice raw (length pre + 4) (length pre + 8))
                = N.of_nat (length (f_payload f))).
  { unfold raw. now rewrite peek_size. }
  assert (Hpl : Py.slice raw (length pre + 8) (length pre + 8 + length (f_payload f))
                = f_payload f) by apply peek_payload.
  clearbody raw. cbn [decode_loop].
  rewrite Hty', Hty, !Hsz, Nat2N.id, Hpl.
  destruct (Nat.ltb_spec (length pre) (length raw)); [|lia].
  destruct (Nat.leb_spec (length pre + 8) (length raw)); [|lia].
  destruct (N.leb_spec (N.of_nat (length pre) + 8 + N.of_nat (length (f_payload f)))
                       (N.of_nat (length raw))); [|lia].
  destruct (N.ltb_spec 0 (N.of_nat (length (f_payload f)))); [|lia].
  cbn [andb].
  replace (length pre + (8 + length (f_payload f)))
    with (length pre + 8 + length (f_payload f)) by lia.
  reflexivity.
Qed.

(** A turn of the loop that finds a declared length of zero takes the
    raw-text fallback. *)
Lemma decode_loop_zero_size (pre tail : list byte)
    (hd p1 p2 p3 s1 s2 s3 s4 : byte) (fuel : nat) (result : list string) :
  is_stream_type hd = true ->
  Py.from_bytes_big [s1; s2; s3; s4] = 0%N ->
  decode_loop (S fuel)
    (pre ++ hd :: p1 :: p2 :: p3 :: s1 :: s2 :: s3 :: s4 :: tail)
    (length pre) result
  = result ++ [Py.decode_utf8_replace
                 (hd :: p1 :: p2 :: p3 :: s1 :: s2 :: s3 :: s4 :: tail)].
Proof.
  intros Hty Hzero. set (raw := pre ++ _).
  assert (Hraw : length raw = length pre + 8 + length tail).
  { unfold raw. rewrite length_app. cbn [length]. lia. }
  assert (Hty' : raw !! length pre = Some hd) by apply peek_type.
  assert (Hsz : Py.from_bytes_big (Py.slice raw (length pre + 4) (length pre + 8))
                = 0%N).
  { unfold raw. now rewrite peek_size. }
  assert (Hrest : Py.slice_from raw (length pre)
                  = hd :: p1 :: p2 :: p3 :: s1 :: s2 :: s3 :: s4 :: tail).
  { unfold raw, Py.slice_from. apply drop_app_length. }
  clearbody raw. cbn [decode_loop].
  rewrite Hty', Hty, !Hsz, Hrest.
  destruct (Nat.ltb_spec (length pre) (length raw)); [|lia].
  destruct (Nat.leb_spec (length pre + 8) (length raw)); [|lia].
  now rewrite andb_false_r.
Qed.

(** The bytes of the frames of a buffer are at least eight per frame. *)
Lemma stream_bytes_cons (f : frame) (fs : list frame) :
  stream_bytes (f :: fs) = frame_bytes f ++ stream_bytes fs.
Proof. reflexivity. Qed.

(** The loop over a buffer of well-formed frames. *)
Lemma decode_loop_stream (fs : list frame) :
  forall pre result fuel,
    Forall (fun f => well_formed f = true) fs ->
    length (stream_bytes fs) <= fuel ->
    Py.join (decode_loop fuel (pre ++ stream_bytes fs) (length pre) result)
    = (Py.join result ++ stream_text fs)%string.
Proof.
  induction fs as [|f fs IH]; intros pre result fuel Hwf Hfuel.
  - cbn [stream_bytes map concat stream_text]. rewrite app_nil_r, append_nil_r.
    destruct fuel as [|fuel]; [reflexivity|]. cbn [decode_loop].
    destruct (Nat.ltb_spec (length pre) (length pre)); [lia | reflexivity].
  - inversion Hwf as [|? ? Hf Hfs]; subst.
    rewrite stream_bytes_cons, length_app, (frame_bytes_length f Hf) in Hfuel.
    destruct fuel as [|fuel]; [lia|].
    cbn [stream_text]. destruct (empty_payload f) eqn:Hempty.
    + destruct (well_formed_layout f Hf)
        as (p1 & p2 & p3 & s1 & s2 & s3 & s4 & Hp & Hs & Hty & Hlen).
      assert (Hnil : f_payload f = []).
      { unfold empty_payload in Hempty. now destruct (f_payload f). }
      rewrite Hs, Hnil in Hlen.
      rewrite !stream_bytes_cons. unfold frame_bytes.
      rewrite Hp, Hs, Hnil. cbn [app].
      rewrite (decode_loop_zero_size pre _ _ _ _ _ _ _ _ _ fuel result Hty Hlen).
      apply join_snoc.
    + rewrite stream_bytes_cons.
      rewrite (decode_loop_frame f pre (stream_bytes fs) fuel result Hf Hempty).
      rewrite (app_assoc pre).
      rewrite IH by (assumption || lia).
      unfold frame_text. destruct (is_stdin_or_stdout (f_type f)).
      * rewrite join_snoc. apply append_assoc.
      * reflexivity.
Qed.

(** A turn of the loop that finds a truncated frame takes the raw-text
    fallback over all of its bytes. *)
Lemma decode_loop_truncated (pre t : list byte) (fuel : nat)
    (result : list string) :
  truncated t ->
  decode_loop (S fuel) (pre ++ t) (length pre) result
  = result ++ [Py.decode_utf8_replace t].
Proof.
  intros (Hne & f & rest & Hwf & Hrest & Hsplit).
  destruct (well_formed_layout f Hwf)
    as (p1 & p2 & p3 & s1 & s2 & s3 & s4 & Hp & Hs & Hty & Hlen).
  unfold frame_bytes in Hsplit. rewrite Hp, Hs in Hsplit. rewrite Hs in Hlen.
  cbn [app] in Hsplit.
  assert (Hdrop : Py.slice_from (pre ++ t) (length pre) = t)
    by apply drop_app_length.
  assert (Hpos : length rest <> 0) by (destruct rest; [congruence | simpl; lia]).
  cbn [decode_loop]. rewrite Hdrop, length_app.
  destruct (Nat.ltb_spec (length pre) (length pre + length t));
    [|destruct t; [congruence | simpl in *; lia]].
  destruct (Nat.leb_spec (length pre + 8) (length pre + length t));
    [|reflexivity].
  destruct t as [|b0 [|b1 [|b2 [|b3 [|b4 [|b5 [|b6 [|b7 t']]]]]]]];
    try (simpl in *; lia).
  injection Hsplit as E0 E1 E2 E3 E4 E5 E6 E7 Hpayload. subst.
  rewrite peek_type, Hty, peek_size, Hlen, Hpayload, length_app.
  match goal with |- context [(?a <=? ?b)%N] => destruct (N.leb_spec a b) end;
    [simpl in *; lia | reflexivity].
Qed.

Lemma decode_loop_stream_truncated (fs : list frame) (t : list byte) :
  forall pre result fuel,
    Forall (fun f => well_formed f = true /\ empty_payload f = false) fs ->
    truncated t ->
    S (length (stream_bytes fs)) <= fuel ->
    Py.join (decode_loop fuel (pre ++ stream_bytes fs ++ t) (length pre) result)
    = (Py.join result ++ stream_text fs ++ Py.decode_utf8_replace t)%string.
Proof.
  intros pre result fuel Hwf Ht. revert pre result fuel.
  induction Hwf as [|f fs [Hf Hempty] Hfs IH]; intros pre result fuel Hfuel.
  - destruct fuel as [|fuel]; [lia|].
    cbn [stream_bytes map concat stream_text app].
    rewrite decode_loop_truncated by assumption. apply join_snoc.
  - rewrite stream_bytes_cons, length_app, (frame_bytes_length f Hf) in Hfuel.
    destruct fuel as [|fuel]; [lia|].
    rewrite stream_bytes_cons, <- app_assoc.
    rewrite (decode_loop_frame f pre (stream_bytes fs ++ t) fuel result Hf Hempty).
    rewrite (app_assoc pre).
    rewrite IH by lia.
    cbn [stream_text]. rewrite Hempty.
    unfold frame_text. destruct (is_stdin_or_stdout (f_type f)).
    + now rewrite join_snoc, !append_assoc.
    + reflexivity.
Qed.


Lemma append_same_nil (s x : string) : (s ++ x)%string = s -> x = "".
Proof.
  induction s as [|c s IH]; [trivial|].
  change (String c (s ++ x)%string = String c s -> x = "").
  intros H. injection H as H. auto.
Qed.

Lemma scrub_nonempty (bs : list byte) : bs <> [] -> Py.scrub bs <> [].
Proof.
  destruct bs as [|b0 r0]; [congruence|]. intros _. cbn [Py.scrub].
  repeat match goal with
         | |- context [if ?c then _ else _] => destruct c
         | |- context [match ?l with [] => _ | _ :: _ => _ end] => destruct l
         end; discriminate.
Qed.

Lemma decode_utf8_replace_nonempty (bs : list byte) :
  bs <> [] -> Py.decode_utf8_replace bs <> "".
Proof.
  intros H. apply scrub_nonempty in H. unfold Py.decode_utf8_replace.
  destruct (Py.scrub bs); [congruence | discriminate].
Qed.

Lemma stream_text_payloads (fs : list frame) :
  Forall (fun f => empty_payload f = false) fs ->
  stream_text fs = Py.join (map frame_text fs).
Proof.
  induction 1 as [|f fs Hf _ IH]; [reflexivity|].
  cbn [stream_text map]. now rewrite Hf, IH.
Qed.

Lemma decode_stream_text (fs : list frame) :
  Forall (fun f => well_formed f = true) fs ->
  _decode_docker_stream (stream_bytes fs) = stream_text fs.
Proof.
  intros Hwf. unfold _decode_docker_stream.
  exact (decode_loop_stream fs [] [] _ Hwf (le_n _)).
Qed.

(** C3, as amended. For every buffer that consists entirely of well-formed
    frames, the decoder returns, in order, the payloads of the stdin (0)
    and stdout (1) frames, each decoded as UTF-8 with replacement, and
    skips the payloads of the stderr (2) frames, up to the first frame
    whose payload is empty; from that frame on, the rest of the buffer,
    headers included, is returned as raw text.  In particular, when no
    payload is empty the result is the concatenation of the texts of the
    frames. *)
Theorem decode_well_formed_frames (fs : list frame) :
  Forall (fun f => well_formed f = true) fs ->
  _decode_docker_stream (stream_bytes fs) = stream_text fs
  /\ (Forall (fun f => empty_payload f = false) fs ->
      _decode_docker_stream (stream_bytes fs) = Py.join (map frame_text fs)).
Proof.
  intros Hwf.
  pose proof (decode_stream_text fs Hwf) as H.
  split; [exact H|]. intros Hne. rewrite H. now apply stream_text_payloads.
Qed.

Lemma decode_well_formed_frames_witness :
  Forall (fun f => well_formed f = true)
    [Samples.stdin_in; Samples.stderr_no; Samples.stdout_hi]
  /\ _decode_docker_stream
       (stream_bytes [Samples.stdin_in; Samples.stderr_no; Samples.stdout_hi])
     = "inhi".
Proof.
  assert (Hwf : Forall (fun f => well_formed f = true)
                  [Samples.stdin_in; Samples.stderr_no; Samples.stdout_hi])
    by (repeat constructor).
  split; [exact Hwf|].
  exact (proj1 (decode_well_formed_frames _ Hwf)).
Defined.

(** C3, as stated, fails: a stderr payload is dropped, a stdin payload is
    kept, and a frame with an empty payload turns the rest of the buffer
    into raw text. *)
Lemma decode_well_formed_frames_counterexample :
  Forall (fun f => well_formed f = true)
    [Samples.stderr_no; Samples.stdout_hi; Samples.stdin_in; Samples.stdout_empty]
  /\ (_decode_docker_stream (stream_bytes [Samples.stderr_no; Samples.stdout_hi])
      = "hi"
      /\ spec_stream_text [Samples.stderr_no; Samples.stdout_hi] = "nohi")
  /\ (_decode_docker_stream (stream_bytes [Samples.stdin_in]) = "in"
      /\ spec_stream_text [Samples.stdin_in] = "")
  /\ (_decode_docker_stream (stream_bytes [Samples.stdout_empty; Samples.stdout_hi])
      = Py.decode_utf8_replace
          (stream_bytes [Samples.stdout_empty; Samples.stdout_hi])
      /\ spec_stream_text [Samples.stdout_empty; Samples.stdout_hi] = "hi"
      /\ _decode_docker_stream
           (stream_bytes [Samples.stdout_empty; Samples.stdout_hi])
         <> "hi").
Proof.
  split; [repeat constructor|].
  repeat split; try reflexivity. vm_compute. discriminate.
Qed.

(** C4, as amended. For every buffer that is a sequence of well-formed
    frames with non-empty payloads followed by a truncated trailing frame,
    the decoder returns the text of the well-formed prefix followed by all
    the bytes of the truncated frame, its header included, decoded as raw
    UTF-8 text with replacement.  That text is never empty, so the result
    is never the text of the prefix alone.  The decoder returns text only
    and holds no bytes back: the read loop appends all of that text to its
    buffer and goes on to the next read. *)
Theorem decode_truncated_trailing_frame (fs : list frame) (t : list byte) :
  Forall (fun f => well_formed f = true /\ empty_payload f = false) fs ->
  truncated t ->
  _decode_docker_stream (stream_bytes fs ++ t)
  = (_decode_docker_stream (stream_bytes fs) ++ Py.decode_utf8_replace t)%string
  /\ _decode_docker_stream (stream_bytes fs ++ t)
     <> _decode_docker_stream (stream_bytes fs)
  /\ (forall buf polls,
        Py.split_newline buf = None ->
        Channel.read_loop (Channel.Ready (stream_bytes fs ++ t) :: polls) buf
        = Channel.read_loop polls
            (buf ++ (_decode_docker_stream (stream_bytes fs)
                     ++ Py.decode_utf8_replace t))%string).
Proof.
  intros Hfs Ht.
  assert (Hwf : Forall (fun f => well_formed f = true) fs).
  { eapply Forall_impl; [exact Hfs|]. now intros f [H _]. }
  assert (H : _decode_docker_stream (stream_bytes fs ++ t)
              = (_decode_docker_stream (stream_bytes fs)
                 ++ Py.decode_utf8_replace t)%string).
  { rewrite (decode_stream_text fs Hwf).
    unfold _decode_docker_stream.
    apply (decode_loop_stream_truncated fs t [] [] _ Hfs Ht).
    rewrite length_app. destruct Ht as [Hne _].
    destruct t; [congruence | simpl; lia]. }
  split; [exact H|]. split.
  - rewrite H. intros Heq. apply append_same_nil in Heq.
    destruct Ht as [Hne _]. now apply (decode_utf8_replace_nonempty t).
  - intros buf polls Hbuf. cbn [Channel.read_loop]. rewrite Hbuf, <- H.
    destruct (stream_bytes fs ++ t) as [|b data] eqn:Hdata; [|reflexivity].
    apply app_eq_nil in Hdata. destruct Ht as [Hne _]. now destruct Hdata.
Qed.

Lemma cut_abcd_truncated : truncated Samples.cut_abcd.
Proof.
  split; [discriminate|].
  exists Samples.stdout_abcd, [x63; x64].
  repeat split; discriminate.
Defined.

Lemma decode_truncated_trailing_frame_witness :
  _decode_docker_stream (stream_bytes [Samples.stdout_hi] ++ Samples.cut_abcd)
  = (_decode_docker_stream (stream_bytes [Samples.stdout_hi])
     ++ Py.decode_utf8_replace Samples.cut_abcd)%string.
Proof.
  refine (proj1 (decode_truncated_trailing_frame
                   [Samples.stdout_hi] Samples.cut_abcd _ cut_abcd_truncated)).
  repeat constructor.
Defined.

(** C4, as stated, fails: after the frame "hi", the first ten bytes of a
    frame that declares four payload bytes come out as twelve characters
    of text, not as the text "hi" of the prefix. *)
Lemma decode_truncated_trailing_frame_counterexample :
  Forall (fun f => well_formed f = true) [Samples.stdout_hi]
  /\ truncated Samples.cut_abcd
  /\ _decode_docker_stream (stream_bytes [Samples.stdout_hi]) = "hi"
  /\ String.length
       (_decode_docker_stream
          (stream_bytes [Samples.stdout_hi] ++ Samples.cut_abcd)) = 12
  /\ _decode_docker_stream (stream_bytes [Samples.stdout_hi] ++ Samples.cut_abcd)
     <> _decode_docker_stream (stream_bytes [Samples.stdout_hi]).
Proof.
  split; [repeat constructor|].
  split; [exact cut_abcd_truncated|].
  repeat split. vm_compute. discriminate.
Qed.

(** C9. For every buffer that begins with a frame header whose first byte
    is 0, 1 or 2 and whose length bytes declare a payload of 0 bytes, the
    decoder does not step over the frame: it takes the raw-text fallback
    and returns the whole buffer, the eight header bytes included, decoded
    as UTF-8 text with replacement. *)
Theorem decode_zero_length_header
    (hd p1 p2 p3 s1 s2 s3 s4 : byte) (tail : list byte) :
  is_stream_type hd = true ->
  Py.from_bytes_big [s1; s2; s3; s4] = 0%N ->
  _decode_docker_stream (hd :: p1 :: p2 :: p3 :: s1 :: s2 :: s3 :: s4 :: tail)
  = Py.decode_utf8_replace
      (hd :: p1 :: p2 :: p3 :: s1 :: s2 :: s3 :: s4 :: tail).
Proof.
  intros Hty Hzero. unfold _decode_docker_stream. cbn [length].
  rewrite (decode_loop_zero_size [] tail hd p1 p2 p3 s1 s2 s3 s4 _ [] Hty Hzero).
  apply (join_snoc []).
Qed.

Lemma decode_zero_length_header_witness :
  _decode_docker_stream
    (x01 :: x00 :: x00 :: x00 :: x00 :: x00 :: x00 :: x00
     :: Frames.frame_bytes Samples.stdout_hi)
  = Py.decode_utf8_replace
      (x01 :: x00 :: x00 :: x00 :: x00 :: x00 :: x00 :: x00
       :: Frames.frame_bytes Samples.stdout_hi).
Proof.
  apply decode_zero_length_header; reflexivity.
Defined.

End CodecFacts.

Module RegistryFacts.

(** *** The semaphore *)

Lemma acquire_positive (s s' : Semaphore.t) :
  Semaphore.acquire s = Some s' ->
  Semaphore._value s = S (Semaphore._value s').
Proof.
  unfold Semaphore.acquire, Semaphore.locked.
  destruct s as [v]. cbn. destruct v as [|v]; cbn; [discriminate|].
  intros [= <-]. cbn. lia.
Qed.

Lemma acquire_release (s s' : Semaphore.t) :
  Semaphore.acquire s = Some s' -> Semaphore.release s' = s.
Proof.
  intros H. apply acquire_positive in H. destruct s as [v], s' as [v'].
  cbn in *. now subst.
Qed.

Lemma outstanding_acquire (sm : SessionManager) (sem : Semaphore.t) :
  Semaphore.acquire (_semaphore sm) = Some sem ->
  outstanding (set_semaphore sm sem) = (outstanding sm + 1)%Z.
Proof.
  intros H. apply acquire_positive in H. unfold outstanding. cbn. lia.
Qed.

Lemma outstanding_release (sm : SessionManager) :
  outstanding (release_permit sm) = (outstanding sm - 1)%Z.
Proof. unfold outstanding. cbn. lia. Qed.

Lemma outstanding_set_sessions (sm : SessionManager) m :
  outstanding (set_sessions sm m) = outstanding sm.
Proof. reflexivity. Qed.

(** *** The map *)

Lemma size_delete_present (m : gmap string Session) sid s :
  m !! sid = Some s -> Z.of_nat (size (delete sid m)) = (Z.of_nat (size m) - 1)%Z.
Proof.
  intros H. rewrite <- (insert_delete_id m sid s H) at 2.
  rewrite map_size_insert_None by apply lookup_delete_eq. lia.
Qed.

(** *** [delete_session] *)

Lemma delete_session_absent sm sid kill :
  _sessions sm !! sid = None ->
  delete_session sm sid kill = (Raise (SessionNotFound sid), sm, []).
Proof. intros H. unfold delete_session. now rewrite H. Qed.

Lemma delete_session_present sm sid s kill :
  _sessions sm !! sid = Some s ->
  delete_session sm sid kill
  = (Ok tt, release_permit (set_sessions sm (delete sid (_sessions sm))),
     [DockerKill (container s)]).
Proof. intros H. unfold delete_session. now rewrite H. Qed.

Lemma delete_session_accounted sm sid kill :
  permits_accounted sm ->
  permits_accounted (delete_session sm sid kill).1.2.
Proof.
  intros Hinv. destruct (_sessions sm !! sid) as [s|] eqn:Hs.
  - rewrite (delete_session_present _ _ _ _ Hs). cbn [fst snd].
    unfold permits_accounted, active_session_count in *.
    rewrite outstanding_release, outstanding_set_sessions. cbn [_sessions set_sessions release_permit set_semaphore].
    rewrite (size_delete_present _ _ _ Hs). lia.
  - now rewrite (delete_session_absent _ _ _ Hs).
Qed.

Lemma delete_each_accounted ids : forall sm kill,
  permits_accounted sm ->
  permits_accounted (delete_each sm ids kill).1.2.
Proof.
  induction ids as [|sid ids IH]; intros sm kill Hinv; [exact Hinv|].
  cbn [delete_each].
  pose proof (delete_session_accounted sm sid kill Hinv) as H1.
  destruct (delete_session sm sid kill) as [[r sm1] tr1]. cbn [fst snd] in H1.
  specialize (IH sm1 kill H1).
  destruct (delete_each sm1 ids kill) as [[deleted sm2] tr2].
  now destruct r.
Qed.

Lemma delete_all_sessions_accounted sm kill :
  permits_accounted sm -> permits_accounted (delete_all_sessions sm kill).1.2.
Proof. apply delete_each_accounted. Qed.

Lemma cleanup_sweep_accounted sm now kill :
  permits_accounted sm -> permits_accounted (cleanup_sweep sm now kill).1.
Proof.
  intros H. unfold cleanup_sweep.
  match goal with |- context [delete_each sm ?ids kill] =>
    pose proof (delete_each_accounted ids sm kill H) as H';
    destruct (delete_each sm ids kill) as [[d sm'] tr] end.
  exact H'.
Qed.

Lemma shutdown_accounted sm kill :
  permits_accounted sm -> permits_accounted (shutdown sm kill).1.
Proof.
  intros H. unfold shutdown.
  pose proof (delete_each_accounted (session_keys sm) sm kill H) as H'.
  destruct (delete_each sm (session_keys sm) kill) as [[d sm'] tr].
  exact H'.
Qed.

(** *** [create_session] *)

Lemma set_sessions_twice sm (a b : gmap string Session) :
  set_sessions (set_sessions sm a) b = set_sessions sm b.
Proof. reflexivity. Qed.

Lemma sessions_set_sessions sm (a : gmap string Session) :
  _sessions (set_sessions sm a) = a.
Proof. reflexivity. Qed.

Lemma create_session_no_slots sm game_file task_type env :
  Semaphore.locked (_semaphore sm) = true ->
  create_session sm game_file task_type env
  = Some (Raise (NoSlotsAvailable (max_sessions (config sm))), sm, []).
Proof.
  unfold Semaphore.locked, create_session. intros H.
  apply Nat.eqb_eq in H. now rewrite H.
Qed.

(** With a permit free, the call takes it and runs the body under the two
    [except] clauses. *)
Lemma create_session_admitted sm game_file task_type env :
  Semaphore.locked (_semaphore sm) = false ->
  exists sem,
    Semaphore.acquire (_semaphore sm) = Some sem /\
    create_session sm game_file task_type env
    = match create_session_body (set_semaphore sm sem) game_file task_type env with
      | (Raise (NoSlotsAvailable n), sm', trace) =>
        Some (Raise (NoSlotsAvailable n), sm', trace)
      | (Raise (ContainerError d), sm', trace) =>
        Some (Raise (ContainerError d), sm', trace)
      | (Raise e, sm', trace) =>
        Some (Raise (ContainerError (CreateFailed e)), release_permit sm', trace)
      | (Ok session, sm', trace) => Some (Ok session, sm', trace)
      end.
Proof.
  unfold create_session, Semaphore.acquire, Semaphore.locked. intros H.
  rewrite H. apply Nat.eqb_neq in H. eexists. split; [reflexivity|].
  destruct (Nat.ltb_spec 0 (Semaphore._value (_semaphore sm))); [|lia].
  reflexivity.
Qed.

Lemma create_session_body_end sm game_file task_type env :
  body_end sm (env_uuid env)
    (create_session_body sm game_file task_type env).1.1
    (create_session_body sm game_file task_type env).1.2.
Proof.
  unfold create_session_body.
  destruct (pick_game_file _ _ _ _) as [g|e] eqn:Hpick.
  2:{ unfold pick_game_file, random_choice in Hpick.
      destruct game_file; [discriminate|].
      destruct (candidates _ _); [|discriminate].
      injection Hpick as <-. constructor. }
  destruct (env_run env) as [c|cl tx]; [|constructor].
  destruct (env_attach env) as [sock|cl tx]; [|constructor].
  destruct (send_command _ _ _) as [[response session1] sent].
  destruct response as [| | | | | |items];
    try (cbn [fst snd];
         rewrite set_sessions_twice, sessions_set_sessions, insert_insert_eq;
         apply EndNoGet).
  destruct (negb _); cbn [fst snd];
    rewrite !set_sessions_twice, !sessions_set_sessions, insert_insert_eq.
  - rewrite delete_insert_eq. apply EndInitFailed.
  - rewrite insert_insert_eq. apply EndOk.
Qed.

Lemma create_session_returns sm game_file task_type env :
  create_session sm game_file task_type env <> None.
Proof.
  destruct (Semaphore.locked (_semaphore sm)) eqn:Hl.
  - now rewrite create_session_no_slots.
  - destruct (create_session_admitted sm game_file task_type env Hl)
      as (sem & _ & ->).
    destruct (create_session_body _ _ _ _) as [[[s|e] sm'] trace];
      [discriminate|]. destruct e; discriminate.
Qed.

(** The permit accounting survives [create_session] unless the call ends
    in the [AttributeError] of a reply that is not a dict. *)
Lemma create_session_accounted sm game_file task_type env r sm' trace :
  create_session sm game_file task_type env = Some (r, sm', trace) ->
  permits_accounted sm ->
  _sessions sm !! env_uuid env = None ->
  r <> Raise (ContainerError (CreateFailed Json.no_get)) ->
  permits_accounted sm'.
Proof.
  intros Hrun Hinv Hfresh Hr.
  destruct (Semaphore.locked (_semaphore sm)) eqn:Hl.
  { rewrite create_session_no_slots in Hrun by assumption.
    now injection Hrun as <- <- <-. }
  destruct (create_session_admitted sm game_file task_type env Hl)
    as (sem & Hacq & Heq).
  rewrite Heq in Hrun. clear Heq.
  pose proof (create_session_body_end (set_semaphore sm sem)
                game_file task_type env) as Hend.
  destruct (create_session_body _ _ _ _) as [[r0 sm0] trace0].
  cbn [fst snd] in Hend.
  pose proof (outstanding_acquire sm sem Hacq) as Hout.
  unfold permits_accounted, active_session_count in *.
  inversion Hend; subst; injection Hrun as <- <- <-.
  - rewrite outstanding_release. cbn [_sessions release_permit set_semaphore]. lia.
  - congruence.
  - rewrite outstanding_release, outstanding_set_sessions.
    cbn [_sessions release_permit set_sessions set_semaphore].
    rewrite delete_id by assumption. lia.
  - rewrite outstanding_set_sessions. cbn [_sessions set_sessions set_semaphore].
    rewrite map_size_insert_None by assumption. lia.
Qed.


Lemma release_acquired sm sem :
  Semaphore.acquire (_semaphore sm) = Some sem ->
  release_permit (set_semaphore sm sem) = sm.
Proof.
  intros H. apply acquire_release in H. destruct sm as [c g m s].
  unfold release_permit, set_semaphore. cbn in *. now rewrite H.
Qed.

Lemma set_sessions_same sm : set_sessions sm (_sessions sm) = sm.
Proof. now destruct sm. Qed.

(** A failure before the session is put into the map gives the permit
    back and leaves the manager as it was. *)
Lemma create_session_attach_failure sm game_file task_type env g c class text :
  Semaphore.locked (_semaphore sm) = false ->
  pick_game_file (game_files sm) game_file task_type (env_random env) = Ok g ->
  env_run env = Done c ->
  env_attach env = Fails class text ->
  create_session sm game_file task_type env
  = Some (Raise (ContainerError (CreateFailed (PyError class text))), sm,
          [DockerRun (env_uuid env); DockerAttach c]).
Proof.
  intros Hl Hpick Hrun Hattach.
  destruct (create_session_admitted sm game_file task_type env Hl)
    as (sem & Hacq & ->).
  unfold create_session_body. cbn [game_files set_semaphore].
  rewrite Hpick, Hrun, Hattach.
  now rewrite (release_acquired sm sem Hacq).
Qed.

(** The init-failure path of lines 120-126: the container is killed, the
    session is popped and the permit released. *)
Lemma create_session_init_failed sm game_file task_type env g c sock
    items session1 sent :
  Semaphore.locked (_semaphore sm) = false ->
  _sessions sm !! env_uuid env = None ->
  pick_game_file (game_files sm) game_file task_type (env_random env) = Ok g ->
  env_run env = Done c ->
  env_attach env = Done sock ->
  send_command
    {| session_id := env_uuid env; container := c; socket := sock;
       game_file := g; observation := JStr "";
       admissible_commands := JList []; status := "active";
       created_at := env_created_at env;
       last_active_at := env_last_active_at env; _read_buffer := "" |}
    (JDict [("cmd", JStr "init");
            ("game_file", JStr (_to_container_path (config sm) g))])
    (env_init env)
  = (JDict items, session1, sent) ->
  Json.eq_str (Json.get items "status" JNull) "ok" = false ->
  create_session sm game_file task_type env
  = Some (Raise (ContainerError
                   (InitFailed (Json.get items "message" (JStr "unknown error")))),
          sm,
          [DockerRun (env_uuid env); DockerAttach c] ++ sent ++ [DockerKill c]).
Proof.
  intros Hl Hfresh Hpick Hrun Hattach Hsend Hstatus.
  destruct (create_session_admitted sm game_file task_type env Hl)
    as (sem & Hacq & ->).
  unfold create_session_body. cbn [game_files config set_semaphore].
  rewrite Hpick, Hrun, Hattach, Hsend, Hstatus. cbn [negb].
  rewrite !set_sessions_twice, !sessions_set_sessions,
    insert_insert_eq, delete_insert_eq.
  cbn [_sessions set_semaphore]. rewrite delete_id by assumption.
  change (set_sessions (set_semaphore sm sem) (_sessions sm))
    with (set_sessions (set_semaphore sm sem) (_sessions (set_semaphore sm sem))).
  rewrite set_sessions_same, (release_acquired sm sem Hacq).
  unfold _kill_container. now rewrite <- app_assoc.
Qed.

(** An I/O failure of the exchange never raises: it comes back as a reply
    whose status is not ["ok"]. *)
Lemma send_command_failure session command w :
  (exists class text, sendall w = Fails class text)
  \/ Channel.read_loop (polls w) (_read_buffer session) = Channel.TimeoutError
  \/ Channel.read_loop (polls w) (_read_buffer session) = Channel.ConnectionError ->
  exists items session1,
    send_command session command w
    = (JDict items, session1, [SockSend (socket session) command])
    /\ Json.eq_str (Json.get items "status" JNull) "ok" = false.
Proof.
  unfold send_command, _send_command_sync, _read_from_stdout,
    communication_error.
  intros [(class & text & H)|[H|H]]; rewrite H.
  - eexists _, _. split; reflexivity.
  - destruct (sendall w); eexists _, _; split; reflexivity.
  - destruct (sendall w); eexists _, _; split; reflexivity.
Qed.

(** C1. At the failing input: the container starts and the attach raises.
    The call gives the permit back, leaves no session in the map and
    raises a container error, but issues no kill for the container it
    started. *)
Theorem create_session_attach_failure_no_kill :
  exists trace,
    create_session World.manager None None World.env_attach_fails
    = Some (Raise (ContainerError
                     (CreateFailed (PyError "APIError" "500 Server Error"))),
            World.manager, trace)
    /\ In (DockerRun World.sid) trace
    /\ ~ In (DockerKill 7) trace
    /\ _sessions World.manager !! World.sid = None
    /\ outstanding World.manager = 0%Z.
Proof.
  exists [DockerRun World.sid; DockerAttach 7].
  split; [reflexivity|]. split; [now left|].
  split; [|split; reflexivity].
  intros [H|[H|[]]]; discriminate.
Qed.

(** C2. At the failing input: the worker answers the init command with a
    line that is JSON but not an object.  The call ends with the session
    still in the map and its permit given back: one session, no permit
    outstanding. *)
Theorem create_session_non_dict_reply_unaccounted :
  permits_accounted World.manager
  /\ exists sm' trace,
       create_session World.manager None None World.env_reply_one
       = Some (Raise (ContainerError (CreateFailed Json.no_get)), sm', trace)
       /\ active_session_count sm' = 1
       /\ outstanding sm' = 0%Z
       /\ ~ permits_accounted sm'.
Proof.
  split; [reflexivity|].
  eexists _, _. split; [vm_compute; reflexivity|].
  split; [reflexivity|]. split; [reflexivity|].
  unfold permits_accounted. vm_compute. discriminate.
Qed.

(** C5. [create_session] never waits for a permit: every call returns, and
    a call made when no permit is free raises [NoSlotsAvailable], which is
    not a container error, without any call to Docker and without any
    change to the map or the semaphore. *)
Theorem create_session_admission_never_blocks
    sm game_file task_type env :
  create_session sm game_file task_type env <> None
  /\ (Semaphore.locked (_semaphore sm) = true ->
      create_session sm game_file task_type env
      = Some (Raise (NoSlotsAvailable (max_sessions (config sm))), sm, [])
      /\ is_container_error (NoSlotsAvailable (max_sessions (config sm))) = false).
Proof.
  split; [apply create_session_returns|].
  intros H. split; [now apply create_session_no_slots | reflexivity].
Qed.

Lemma create_session_admission_never_blocks_witness :
  Semaphore.locked (_semaphore (World.manager_with World.session_done)) = true
  /\ create_session (World.manager_with World.session_done) None None World.env_ok
     = Some (Raise (NoSlotsAvailable 1), World.manager_with World.session_done, []).
Proof.
  split; [reflexivity|].
  apply (create_session_admission_never_blocks
           (World.manager_with World.session_done) None None World.env_ok).
  reflexivity.
Defined.

(** *** Steps *)

(** An exchange changes nothing of the session but its read buffer. *)
Lemma send_command_session session command w :
  exists buf, (send_command session command w).1.2 = set_read_buffer session buf.
Proof.
  assert (Hsame : session = set_read_buffer session (_read_buffer session))
    by now destruct session.
  unfold send_command, _send_command_sync, _read_from_stdout.
  destruct (sendall w); [|now exists (_read_buffer session)].
  destruct (Channel.read_loop _ _) as [line rest| |];
    [|now exists (_read_buffer session)..].
  destruct (_extract_json_line (loads w) line) as [text|e];
    [destruct (loads w text)|]; now exists rest.
Qed.







(** C8. For every id: a delete of an id that is not in the map raises
    [SessionNotFound] and leaves the manager, its map and its semaphore,
    as it was; and after a successful delete of an id, a second delete of
    that id is such a delete. *)
Theorem delete_session_idempotent sm sid kill kill' :
  (_sessions sm !! sid = None ->
   delete_session sm sid kill = (Raise (SessionNotFound sid), sm, []))
  /\ (forall sm' trace,
        delete_session sm sid kill = (Ok tt, sm', trace) ->
        delete_session sm' sid kill' = (Raise (SessionNotFound sid), sm', [])
        /\ outstanding (delete_session sm' sid kill').1.2 = outstanding sm'
        /\ _sessions (delete_session sm' sid kill').1.2 = _sessions sm').
Proof.
  split; [apply delete_session_absent|].
  intros sm' trace Hdel.
  assert (Hgone : _sessions sm' !! sid = None).
  { unfold delete_session in Hdel.
    destruct (_sessions sm !! sid); [|discriminate].
    injection Hdel as <- _. cbn. apply lookup_delete_eq. }
  rewrite (delete_session_absent sm' sid kill' Hgone). now repeat split.
Qed.

Lemma delete_session_idempotent_witness :
  exists sm',
    delete_session (World.manager_with World.session_done) World.sid World.kill_ok
    = (Ok tt, sm', [DockerKill 7])
    /\ delete_session sm' World.sid World.kill_ok
       = (Raise (SessionNotFound World.sid), sm', []).
Proof.
  eexists. split; [reflexivity|].
  refine (proj1 (proj2 (delete_session_idempotent
                          (World.manager_with World.session_done)
                          World.sid World.kill_ok World.kill_ok) _ _ _)).
  reflexivity.
Defined.

(** Where the permit accounting holds: across every completed operation
    other than a [create_session] that reuses an id or meets an init reply
    that is not an object. *)
Lemma run_operation_accounted sm op sm' :
  permits_accounted sm ->
  create_well_behaved sm op ->
  run_operation sm op = Some sm' ->
  permits_accounted sm'.
Proof.
  intros Hinv Hop Hrun. destruct op as [g t env|sid kill|kill|now kill|kill];
    cbn [run_operation] in Hrun.
  - destruct (create_session sm g t env) as [[[r sm1] trace]|] eqn:Hc;
      [|discriminate].
    injection Hrun as <-. destruct Hop as [Hfresh Hreply].
    eapply create_session_accounted; eauto.
  - injection Hrun as <-. now apply delete_session_accounted.
  - injection Hrun as <-. now apply delete_all_sessions_accounted.
  - injection Hrun as <-. now apply cleanup_sweep_accounted.
  - injection Hrun as <-. now apply shutdown_accounted.
Qed.

(** *** Game-file selection *)

Lemma TASK_TYPES_unknown (t : Z) : ~ (1 <= t <= 6)%Z -> TASK_TYPES t = None.
Proof.
  intros H. destruct t as [|p|p]; [reflexivity| |reflexivity].
  destruct p as [[[|[]|]|[|[]|]|]|[[|[]|]|[|[]|]|]|]; try reflexivity; lia.
Qed.

Lemma random_choice_member (r : nat) (files : list string) :
  files <> [] -> exists g, random_choice r files = Ok g /\ In g files.
Proof.
  destruct files as [|g0 files]; [congruence|]. intros _.
  eexists. split; [reflexivity|].
  apply nth_In. apply Nat.mod_upper_bound. discriminate.
Qed.

(** C10, as amended. For every call of [create_session] with [game_file]
    omitted, a [task_type] that is not one of the keys 1 to 6 and a pool
    of game files that is not empty: the selection raises no error and
    filters nothing; the game file is drawn from the whole pool, and the
    call as a whole does what it does when [task_type] is omitted. *)
Theorem unknown_task_type_unfiltered sm (t : Z) env :
  ~ (1 <= t <= 6)%Z ->
  game_files sm <> [] ->
  candidates (game_files sm) (Some t) = game_files sm
  /\ (exists g,
        pick_game_file (game_files sm) None (Some t) (env_random env) = Ok g
        /\ In g (game_files sm))
  /\ create_session sm None (Some t) env = create_session sm None None env.
Proof.
  intros Ht Hpool.
  assert (Hc : candidates (game_files sm) (Some t) = game_files sm).
  { unfold candidates. now rewrite (TASK_TYPES_unknown t Ht). }
  split; [exact Hc|]. split.
  - unfold pick_game_file. rewrite Hc. now apply random_choice_member.
  - unfold create_session, create_session_body, pick_game_file.
    cbn [game_files set_semaphore]. now rewrite Hc.
Qed.

Lemma unknown_task_type_unfiltered_witness :
  candidates (game_files World.manager) (Some 7%Z) = game_files World.manager
  /\ create_session World.manager None (Some 7%Z) World.env_ok
     = create_session World.manager None None World.env_ok.
Proof.
  assert (Ht : ~ (1 <= 7 <= 6)%Z) by lia.
  assert (Hpool : game_files World.manager <> []) by discriminate.
  destruct (unknown_task_type_unfiltered World.manager 7 World.env_ok Ht Hpool)
    as (Hc & _ & Hcall).
  split; [exact Hc | exact Hcall].
Defined.

(** C10, as stated, fails when no game file was discovered: the draw from
    the empty pool raises, and the call ends in a container error. *)
Lemma unknown_task_type_counterexample :
  ~ (1 <= 7 <= 6)%Z
  /\ pick_game_file (game_files World.manager_no_games) None (Some 7%Z) 0
     = Raise (PyError "IndexError" "Cannot choose from an empty sequence")
  /\ create_session World.manager_no_games None (Some 7%Z) World.env_ok
     = Some (Raise (ContainerError
                      (CreateFailed
                         (PyError "IndexError"
                            "Cannot choose from an empty sequence"))),
             World.manager_no_games, []).
Proof. split; [lia|]. split; reflexivity. Qed.

End RegistryFacts.

(** * Further properties *)

Module CodecProps.
Import Codec Frames CodecFacts.

(** The result list only grows at its end. *)
Lemma decode_loop_result (fuel : nat) :
  forall raw pos result,
    decode_loop fuel raw pos result = result ++ decode_loop fuel raw pos [].
Proof.
  induction fuel as [|fuel IH]; intros raw pos result.
  - cbn. now rewrite app_nil_r.
  - cbn [decode_loop].
    destruct (pos <? length raw); [|now rewrite app_nil_r].
    destruct (pos + 8 <=? length raw); [|reflexivity].
    destruct (raw !! pos) as [st|]; [|reflexivity].
    destruct (is_stream_type st); [|reflexivity].
    match goal with |- context [if ?c then _ else _] => destruct c end;
      [|reflexivity].
    destruct (is_stdin_or_stdout st).
    + rewrite IH. rewrite (IH _ _ ([] ++ _)). now rewrite <- app_assoc.
    + apply IH.
Qed.

Lemma join_app (a b : list string) :
  Py.join (a ++ b) = (Py.join a ++ Py.join b)%string.
Proof.
  induction a as [|x a IH]; [reflexivity|].
  cbn [app Py.join fold_right]. fold (Py.join (a ++ b)). fold (Py.join a).
  rewrite IH. symmetry. apply append_assoc.
Qed.

(** The loop does not look behind [pos]: dropping a prefix of the buffer
    and moving [pos] back by its length changes nothing. *)
Lemma decode_loop_shift (fuel : nat) :
  forall pre post pos result,
    decode_loop fuel (pre ++ post) (length pre + pos) result
    = decode_loop fuel post pos result.
Proof.
  induction fuel as [|fuel IH]; intros pre post pos result; [reflexivity|].
  cbn [decode_loop]. rewrite length_app.
  assert (Hdrop : forall k, drop (length pre + pos + k) (pre ++ post)
                            = drop (pos + k) post).
  { intros k. rewrite <- Nat.add_assoc. apply drop_app_add. }
  assert (Hslice : forall a b,
             Py.slice (pre ++ post) (length pre + pos + a) (length pre + pos + b)
             = Py.slice post (pos + a) (pos + b)).
  { intros a b. unfold Py.slice. rewrite Hdrop. f_equal. lia. }
  assert (Hfrom : Py.slice_from (pre ++ post) (length pre + pos)
                  = Py.slice_from post pos).
  { unfold Py.slice_from. apply drop_app_add. }
  assert (Hlook : (pre ++ post) !! (length pre + pos) = post !! pos).
  { rewrite lookup_app_r by lia. f_equal. lia. }
  rewrite Hfrom, Hlook, !Hslice.
  replace (length pre + pos <? length pre + length post)
    with (pos <? length post)
    by (destruct (Nat.ltb_spec pos (length post)),
                 (Nat.ltb_spec (length pre + pos) (length pre + length post));
        reflexivity || lia).
  replace (length pre + pos + 8 <=? length pre + length post)
    with (pos + 8 <=? length post)
    by (destruct (Nat.leb_spec (pos + 8) (length post)),
                 (Nat.leb_spec (length pre + pos + 8) (length pre + length post));
        reflexivity || lia).
  destruct (pos <? length post); [|reflexivity].
  destruct (pos + 8 <=? length post); [|reflexivity].
  destruct (post !! pos) as [st|]; [|reflexivity].
  destruct (is_stream_type st); [|reflexivity].
  set (size := Py.from_bytes_big (Py.slice post (pos + 4) (pos + 8))).
  replace (N.of_nat (length pre + pos) + 8 + size
           <=? N.of_nat (length pre + length post))%N
    with (N.of_nat pos + 8 + size <=? N.of_nat (length post))%N
    by (destruct (N.leb_spec (N.of_nat pos + 8 + size) (N.of_nat (length post))),
                 (N.leb_spec (N.of_nat (length pre + pos) + 8 + size)
                    (N.of_nat (length pre + length post)));
        reflexivity || lia).
  match goal with |- context [if ?c then _ else _] => destruct c end;
    [|reflexivity].
  replace (length pre + pos + 8 + N.to_nat size)
    with (length pre + (pos + 8 + N.to_nat size)) by lia.
  rewrite IH.
  replace (Py.slice (pre ++ post) (length pre + pos + 8)
             (length pre + (pos + 8 + N.to_nat size)))
    with (Py.slice post (pos + 8) (pos + 8 + N.to_nat size)).
  - reflexivity.
  - replace (length pre + (pos + 8 + N.to_nat size))
      with (length pre + pos + (8 + N.to_nat size)) by lia.
    rewrite Hslice. f_equal. lia.
Qed.

Lemma decode_loop_frames_then (fs : list frame) (post : list byte) :
  forall pre result fuel,
    Forall (fun f => well_formed f = true /\ empty_payload f = false) fs ->
    length (stream_bytes fs) + length post <= fuel ->
    Py.join (decode_loop fuel (pre ++ stream_bytes fs ++ post) (length pre) result)
    = (Py.join result ++ stream_text fs
       ++ Py.join (decode_loop (length post) post 0 []))%string.
Proof.
  intros pre result fuel Hwf. revert pre result fuel.
  induction Hwf as [|f fs [Hf Hempty] Hfs IH]; intros pre result fuel Hfuel.
  - cbn [stream_bytes map concat stream_text app] in *.
    rewrite <- (Nat.add_0_r (length pre)), decode_loop_shift.
    rewrite decode_loop_result, join_app.
    rewrite (decode_loop_fuel fuel (length post)) by lia. reflexivity.
  - rewrite stream_bytes_cons, length_app, (frame_bytes_length f Hf) in Hfuel.
    destruct fuel as [|fuel]; [lia|].
    rewrite stream_bytes_cons, <- app_assoc.
    rewrite (decode_loop_frame f pre (stream_bytes fs ++ post) fuel result Hf Hempty).
    rewrite (app_assoc pre).
    rewrite IH by lia.
    cbn [stream_text]. rewrite Hempty.
    unfold frame_text. destruct (is_stdin_or_stdout (f_type f)).
    + now rewrite join_snoc, !append_assoc.
    + reflexivity.
Qed.

(** Decoding splits at a frame boundary: after well-formed frames with
    non-empty payloads, the rest of the buffer is decoded as if it had
    been received on its own. *)
Theorem decode_splits_at_frame_boundary (fs : list frame) (rest : list byte) :
  Forall (fun f => well_formed f = true /\ empty_payload f = false) fs ->
  _decode_docker_stream (stream_bytes fs ++ rest)
  = (_decode_docker_stream (stream_bytes fs) ++ _decode_docker_stream rest)%string.
Proof.
  intros Hfs.
  assert (Hwf : Forall (fun f => well_formed f = true) fs).
  { eapply Forall_impl; [exact Hfs|]. now intros f [H _]. }
  rewrite (decode_stream_text fs Hwf). unfold _decode_docker_stream.
  apply (decode_loop_frames_then fs rest [] [] _ Hfs).
  now rewrite length_app.
Qed.

Lemma decode_splits_at_frame_boundary_witness :
  _decode_docker_stream
    (stream_bytes [Samples.stdout_hi; Samples.stdin_in]
     ++ stream_bytes [Samples.stderr_no; Samples.stdout_hi])
  = (_decode_docker_stream (stream_bytes [Samples.stdout_hi; Samples.stdin_in])
     ++ _decode_docker_stream (stream_bytes [Samples.stderr_no; Samples.stdout_hi]))%string.
Proof.
  apply decode_splits_at_frame_boundary. repeat constructor.
Defined.

(** A buffer that cannot start with a frame header is returned whole as raw
    text: a non-empty buffer of fewer than eight bytes, or one whose first
    byte is not 0, 1 or 2. *)
Theorem decode_unframed_is_raw (b : byte) (data : list byte) :
  length data < 7 \/ is_stream_type b = false ->
  _decode_docker_stream (b :: data) = Py.decode_utf8_replace (b :: data).
Proof.
  intros H. unfold _decode_docker_stream. cbn [length].
  set (raw := b :: data).
  assert (Hraw : length raw = S (length data)) by reflexivity.
  assert (Hjoin : Py.join ([] ++ [Py.decode_utf8_replace raw])
                  = Py.decode_utf8_replace raw) by apply (join_snoc []).
  cbn [decode_loop].
  change (Py.slice_from raw 0) with raw. change (raw !! 0) with (Some b).
  rewrite Hraw. cbv iota.
  change (0 <? S (length data)) with true. cbv iota.
  destruct (Nat.leb_spec (0 + 8) (S (length data))) as [Hlen|Hlen];
    [|exact Hjoin].
  destruct H as [H|H]; [cbn in Hlen; lia|]. now rewrite H.
Qed.

Lemma decode_unframed_is_raw_witness :
  _decode_docker_stream [x7b; x7d; x0a] = Py.decode_utf8_replace [x7b; x7d; x0a].
Proof.
  apply decode_unframed_is_raw. left. cbn. lia.
Defined.

(** A header that declares more payload than the buffer holds after it is
    not taken as a frame: the whole buffer, the header included, is returned
    as raw text. *)
Theorem decode_overrun_is_raw
    (hd p1 p2 p3 s1 s2 s3 s4 : byte) (tail : list byte) :
  (N.of_nat (length tail) < Py.from_bytes_big [s1; s2; s3; s4])%N ->
  _decode_docker_stream (hd :: p1 :: p2 :: p3 :: s1 :: s2 :: s3 :: s4 :: tail)
  = Py.decode_utf8_replace
      (hd :: p1 :: p2 :: p3 :: s1 :: s2 :: s3 :: s4 :: tail).
Proof.
  intros Hover. unfold _decode_docker_stream. cbn [length].
  set (raw := hd :: _).
  assert (Hraw : length raw = 8 + length tail) by reflexivity.
  assert (Hsz : Py.slice raw (0 + 4) (0 + 8) = [s1; s2; s3; s4]) by reflexivity.
  assert (Hjoin : Py.join ([] ++ [Py.decode_utf8_replace raw])
                  = Py.decode_utf8_replace raw) by apply (join_snoc []).
  cbn [decode_loop]. rewrite Hsz.
  change (Py.slice_from raw 0) with raw. change (raw !! 0) with (Some hd).
  rewrite Hraw. cbv iota.
  change (0 <? 8 + length tail) with true. cbv iota.
  destruct (0 + 8 <=? 8 + length tail); [|exact Hjoin].
  destruct (is_stream_type hd); [|exact Hjoin].
  destruct (N.leb_spec (N.of_nat 0 + 8 + Py.from_bytes_big [s1; s2; s3; s4])
              (N.of_nat (8 + length tail))); [lia|exact Hjoin].
Qed.

Lemma decode_overrun_is_raw_witness :
  _decode_docker_stream Samples.cut_abcd = Py.decode_utf8_replace Samples.cut_abcd.
Proof.
  apply decode_overrun_is_raw. reflexivity.
Defined.

(** The decoding loop ends within [len(data)] turns: running it for longer
    gives the same text. *)
Theorem decode_loop_finishes (data : list byte) (more : nat) :
  Py.join (decode_loop (length data + more) data 0 []) = _decode_docker_stream data.
Proof.
  unfold _decode_docker_stream. f_equal. apply decode_loop_fuel; lia.
Qed.

End CodecProps.

Module FramingProps.
Import Codec Frames CodecFacts.

Lemma byte_of_value (n : N) : Byte.to_N (PyMore.byte_of n) = (n mod 256)%N.
Proof.
  unfold PyMore.byte_of.
  destruct (Byte.of_N (n mod 256)) as [b|] eqn:Hb.
  - now apply Byte.to_of_N.
  - apply Byte.of_N_None_iff in Hb.
    pose proof (N.mod_upper_bound n 256). lia.
Qed.

Lemma from_to_bytes_big4 (n : N) :
  (n < 4294967296)%N -> Py.from_bytes_big (PyMore.to_bytes_big4 n) = n.
Proof.
  intros Hn. unfold Py.from_bytes_big, PyMore.to_bytes_big4. cbn [fold_left].
  rewrite !byte_of_value.
  assert (H3 : (n / 16777216 < 256)%N) by (apply N.Div0.div_lt_upper_bound; lia).
  rewrite (N.mod_small (n / 16777216) 256) by exact H3.
  change 16777216%N with (65536 * 256)%N at 1.
  change 65536%N with (256 * 256)%N at 1 2.
  rewrite <- !N.Div0.div_div.
  pose proof (N.div_mod (n / 256 / 256) 256).
  pose proof (N.div_mod (n / 256) 256).
  pose proof (N.div_mod n 256). lia.
Qed.

Lemma docker_frame_well_formed (kind : byte) (payload : list byte) :
  is_stream_type kind = true ->
  (N.of_nat (length payload) < 4294967296)%N ->
  well_formed (docker_frame kind payload) = true.
Proof.
  intros Hk Hlen. unfold well_formed, docker_frame. cbn.
  rewrite Hk. cbn. apply N.eqb_eq. now apply from_to_bytes_big4.
Qed.

Lemma scrub_ascii (bs : list byte) :
  forallb (fun b => (Byte.to_N b <? 128)%N) bs = true -> Py.scrub bs = bs.
Proof.
  induction bs as [|b bs IH]; [reflexivity|]. cbn [forallb].
  intros H. apply andb_prop in H as [Hb Hbs].
  cbn [Py.scrub]. unfold Py.between at 1.
  apply N.ltb_lt in Hb.
  destruct (N.leb_spec 0 (Byte.to_N b)); [|lia].
  destruct (N.leb_spec (Byte.to_N b) 127); [|lia].
  cbn [andb]. now rewrite IH.
Qed.

(** ASCII text survives encoding and decoding. *)
Lemma decode_encode_ascii (s : string) :
  PyMore.is_ascii s = true -> Py.decode_utf8_replace (Py.encode_utf8 s) = s.
Proof.
  intros H. unfold Py.decode_utf8_replace, Py.encode_utf8.
  rewrite scrub_ascii by exact H. apply string_of_list_byte_of_string.
Qed.

Lemma length_list_byte_of_string (s : string) :
  length (list_byte_of_string s) = String.length s.
Proof.
  induction s as [|c s IH]; [reflexivity|].
  change (list_byte_of_string (String c s))
    with (byte_of_ascii c :: list_byte_of_string s).
  cbn [length String.length]. now rewrite IH.
Qed.

(** Framing round trip: ASCII texts written to stdout, each framed by the
    daemon, are decoded to their concatenation. *)
Theorem decode_framed_ascii (texts : list string) :
  Forall frameable texts ->
  _decode_docker_stream
    (stream_bytes (map (fun s => docker_frame x01 (Py.encode_utf8 s)) texts))
  = Py.join texts.
Proof.
  intros H.
  set (fs := map (fun s => docker_frame x01 (Py.encode_utf8 s)) texts).
  assert (Hwf : Forall (fun f => well_formed f = true) fs).
  { unfold fs. apply Forall_map. eapply Forall_impl; [exact H|].
    intros s (_ & _ & Hlen). apply docker_frame_well_formed; [reflexivity|].
    unfold Py.encode_utf8. now rewrite length_list_byte_of_string. }
  assert (Hne : Forall (fun f => empty_payload f = false) fs).
  { unfold fs. apply Forall_map. eapply Forall_impl; [exact H|].
    intros s (_ & Hs & _). unfold empty_payload, docker_frame, Py.encode_utf8.
    cbn. destruct s; [congruence|reflexivity]. }
  rewrite (decode_stream_text fs Hwf), (stream_text_payloads fs Hne).
  unfold fs. rewrite map_map. f_equal.
  clear fs Hwf Hne. induction H as [|s texts (Ha & _ & _) _ IH]; [reflexivity|].
  cbn [map]. rewrite IH. f_equal.
  unfold frame_text, docker_frame. cbn. now apply decode_encode_ascii.
Qed.

Lemma decode_framed_ascii_witness :
  _decode_docker_stream
    (stream_bytes (map (fun s => docker_frame x01 (Py.encode_utf8 s))
                     ["look"; "go to desk 1"]))
  = Py.join ["look"; "go to desk 1"].
Proof.
  apply decode_framed_ascii.
  repeat constructor; discriminate.
Defined.

End FramingProps.

Module ChannelProps.
Import Channel.

Lemma split_newline_some (buf line rest : string) :
  Py.split_newline buf = Some (line, rest) ->
  buf = (line ++ newline ++ rest)%string /\ Py.split_newline line = None.
Proof.
  revert line rest. induction buf as [|c buf IH]; intros line rest; [discriminate|].
  cbn [Py.split_newline].
  destruct (Ascii.eqb c "010"%char) eqn:Hc.
  - intros [= <- <-]. apply Ascii.eqb_eq in Hc. subst c. now split.
  - destruct (Py.split_newline buf) as [[line' rest']|]; [|discriminate].
    intros [= <- <-]. destruct (IH line' rest' eq_refl) as [-> Hnone].
    split; [reflexivity|]. cbn [Py.split_newline]. now rewrite Hc, Hnone.
Qed.

Lemma split_newline_app_none (a b : string) :
  Py.split_newline (a ++ b)%string = None -> Py.split_newline a = None.
Proof.
  induction a as [|c a IH]; [reflexivity|].
  change (String c a ++ b)%string with (String c (a ++ b)%string).
  cbn [Py.split_newline]. destruct (Ascii.eqb c "010"%char); [discriminate|].
  destruct (Py.split_newline (a ++ b)%string) as [[? ?]|]; [discriminate|].
  intros _. now rewrite IH.
Qed.

(** The exit of the loop with a line: the line has no newline in it, and
    the line, a newline and the rest are the old buffer followed by the
    text of the turns the loop went through. *)
Lemma read_loop_cut (polls : list poll) :
  forall buf line rest,
    read_loop polls buf = Line line rest ->
    Py.split_newline line = None
    /\ exists consumed left,
         polls = consumed ++ left /\ left <> []
         /\ (line ++ newline ++ rest)%string = (buf ++ polls_text consumed)%string.
Proof.
  induction polls as [|p polls IH]; intros buf line rest; [discriminate|].
  cbn [read_loop]. destruct (Py.split_newline buf) as [[l r]|] eqn:Hbuf.
  - intros [= <- <-]. destruct (split_newline_some _ _ _ Hbuf) as [-> Hnone].
    split; [exact Hnone|]. exists [], (p :: polls).
    split; [reflexivity|]. split; [discriminate|].
    unfold polls_text. cbn. now rewrite append_nil_r.
  - destruct p as [|data].
    + intros H. destruct (IH _ _ _ H) as (Hnone & consumed & left & -> & Hleft & Heq).
      split; [exact Hnone|]. exists (NotReady :: consumed), left.
      split; [reflexivity|]. split; [exact Hleft|].
      rewrite Heq. reflexivity.
    + destruct data as [|b data]; [discriminate|].
      intros H. destruct (IH _ _ _ H) as (Hnone & consumed & left & -> & Hleft & Heq).
      split; [exact Hnone|]. exists (Ready (b :: data) :: consumed), left.
      split; [reflexivity|]. split; [exact Hleft|].
      rewrite Heq. unfold polls_text. cbn [map Py.join fold_right poll_text].
      now rewrite append_assoc.
Qed.

(** What the extraction returns is an end piece of the stripped line. *)
Lemma extract_end_piece loads line text :
  _extract_json_line loads line = Ok text ->
  exists n, text = Py.str_drop n (Py.strip line).
Proof.
  unfold _extract_json_line.
  destruct (loads (Py.strip line)) as [value|class msg].
  { intros [= <-]. now exists 0. }
  destruct (negb (is_decode_error class)); [discriminate|].
  destruct (PyMore.find_char "{"%char (Py.strip line)) as [start|].
  2:{ intros [= <-]. now exists 0. }
  destruct (loads (Py.str_drop start (Py.strip line))) as [value|class' msg'].
  { intros [= <-]. now exists start. }
  destruct (is_decode_error class'); [|discriminate].
  intros [= <-]. now exists 0.
Qed.

(** A read that returns has lost and reordered nothing on the way into the
    buffer: the line it cut has no newline in it, and that line, a newline
    and the text it left in the session's buffer are the old buffer
    followed by the text of the turns the read consumed.  What the read
    returns is not that line but [_extract_json_line] of it, an end piece
    of the stripped line. *)
Theorem read_from_stdout_integrity (w : Wire) (buf text : string)
    (assigned : option string) :
  _read_from_stdout w buf = (Ok text, assigned) ->
  exists line rest consumed left,
    assigned = Some rest
    /\ polls w = consumed ++ left /\ left <> []
    /\ Py.split_newline line = None
    /\ (line ++ newline ++ rest)%string = (buf ++ polls_text consumed)%string
    /\ _extract_json_line (loads w) line = Ok text
    /\ exists n, text = Py.str_drop n (Py.strip line).
Proof.
  unfold _read_from_stdout.
  destruct (read_loop (polls w) buf) as [line rest| |] eqn:Hloop;
    [|discriminate..].
  intros [= Htext <-].
  destruct (read_loop_cut _ _ _ _ Hloop) as (Hnone & consumed & left & Hp & Hl & Heq).
  exists line, rest, consumed, left. repeat (split; [assumption || reflexivity|]).
  exact (extract_end_piece _ _ _ Htext).
Qed.

Lemma read_from_stdout_integrity_witness :
  exists line rest consumed left,
    Some "" = Some rest
    /\ polls (World.wire World.chunk_braces World.reply_ok) = consumed ++ left
    /\ left <> []
    /\ Py.split_newline line = None
    /\ (line ++ newline ++ rest)%string = ("" ++ polls_text consumed)%string
    /\ _extract_json_line
         (loads (World.wire World.chunk_braces World.reply_ok)) line = Ok "{}"
    /\ exists n, "{}" = Py.str_drop n (Py.strip line).
Proof.
  apply (read_from_stdout_integrity
           (World.wire World.chunk_braces World.reply_ok) "" "{}" (Some "")).
  reflexivity.
Defined.

(** A read times out when no newline has arrived by the start of its last
    turn before the deadline and the peer has not closed: the deadline is
    tested before the buffer, so a line that the last turn completes is not
    returned. *)
Theorem read_loop_timeout (polls : list poll) (last : poll) :
  forall buf,
    Forall (fun p => p <> Ready []) (polls ++ [last]) ->
    Py.split_newline (buf ++ polls_text polls)%string = None ->
    read_loop (polls ++ [last]) buf = TimeoutError.
Proof.
  induction polls as [|p polls IH]; intros buf Hopen Hnone.
  - cbn [app read_loop]. unfold polls_text in Hnone. cbn in Hnone.
    rewrite append_nil_r in Hnone. rewrite Hnone.
    inversion Hopen as [|? ? Hp _]; subst.
    destruct last as [|[|b data]]; [reflexivity|congruence|reflexivity].
  - inversion Hopen as [|? ? Hp Hps]; subst.
    cbn [app read_loop]. rewrite (split_newline_app_none _ _ Hnone).
    unfold polls_text in *. cbn [map Py.join fold_right] in Hnone.
    fold (Py.join (map poll_text polls)) in Hnone.
    rewrite <- append_assoc in Hnone.
    destruct p as [|[|b data]]; [|congruence|].
    + apply IH; [exact Hps|]. cbn [poll_text] in Hnone.
      now rewrite append_nil_r in Hnone.
    + apply IH; [exact Hps|exact Hnone].
Qed.

Lemma read_loop_timeout_witness :
  read_loop ([NotReady; Ready [x7b]] ++ [Ready [x7d; x0a]]) "" = TimeoutError.
Proof.
  apply read_loop_timeout; [|reflexivity].
  repeat constructor; discriminate.
Defined.

(** The first turn that finds the connection closed, before a newline has
    arrived, ends the read in [ConnectionError]: what arrives later is not
    looked at. *)
Theorem read_loop_closed (before after : list poll) :
  forall buf,
    Forall (fun p => p <> Ready []) before ->
    Py.split_newline (buf ++ polls_text before)%string = None ->
    read_loop (before ++ Ready [] :: after) buf = ConnectionError.
Proof.
  induction before as [|p before IH]; intros buf Hopen Hnone.
  - cbn [app read_loop]. unfold polls_text in Hnone. cbn in Hnone.
    rewrite append_nil_r in Hnone. now rewrite Hnone.
  - inversion Hopen as [|? ? Hp Hps]; subst.
    cbn [app read_loop]. rewrite (split_newline_app_none _ _ Hnone).
    unfold polls_text in *. cbn [map Py.join fold_right] in Hnone.
    fold (Py.join (map poll_text before)) in Hnone.
    rewrite <- append_assoc in Hnone.
    destruct p as [|[|b data]]; [|congruence|].
    + apply IH; [exact Hps|]. cbn [poll_text] in Hnone.
      now rewrite append_nil_r in Hnone.
    + apply IH; [exact Hps|exact Hnone].
Qed.

Lemma read_loop_closed_witness :
  read_loop ([Ready [x7b]] ++ Ready [] :: [Ready [x7d; x0a]; NotReady]) ""
  = ConnectionError.
Proof.
  apply read_loop_closed; [|reflexivity].
  repeat constructor; discriminate.
Defined.

End ChannelProps.

Module ExchangeProps.
Import RegistryFacts.

(** A reply whose status is ["ok"] is always the worker's own: the write
    went through, a line was read before the deadline, the text extracted
    from that line parsed to the reply, and the text after the line is what
    the session's read buffer holds.  No failure of the exchange is ever
    reported as ok. *)
Theorem exchange_ok_is_workers_reply session command w items session' trace :
  send_command session command w = (JDict items, session', trace) ->
  Json.eq_str (Json.get items "status" JNull) "ok" = true ->
  sendall w = Done tt
  /\ exists line rest text,
       Channel.read_loop (polls w) (_read_buffer session) = Channel.Line line rest
       /\ _extract_json_line (loads w) line = Ok text
       /\ loads w text = Done (JDict items)
       /\ session' = set_read_buffer session rest.
Proof.
  unfold send_command, _send_command_sync, _read_from_stdout,
    communication_error.
  destruct (sendall w) as [[]|class text].
  2:{ intros [= <- _ _]. discriminate. }
  destruct (Channel.read_loop _ _) as [line rest| |].
  2,3: intros [= <- _ _]; discriminate.
  destruct (_extract_json_line (loads w) line) as [text|e] eqn:Hextract.
  2:{ intros [= <- _ _]. discriminate. }
  destruct (loads w text) as [reply|class msg] eqn:Hloads.
  2:{ intros [= <- _ _]. discriminate. }
  intros [= -> <- _] _. split; [reflexivity|]. now exists line, rest, text.
Qed.

Lemma exchange_ok_is_workers_reply_witness :
  sendall (World.wire World.chunk_braces World.reply_ok) = Done tt
  /\ exists line rest text,
       Channel.read_loop (polls (World.wire World.chunk_braces World.reply_ok)) ""
       = Channel.Line line rest
       /\ _extract_json_line
            (loads (World.wire World.chunk_braces World.reply_ok)) line
          = Ok text
       /\ loads (World.wire World.chunk_braces World.reply_ok) text
          = Done World.reply_ok
       /\ World.session_active = set_read_buffer World.session_active rest.
Proof.
  apply (exchange_ok_is_workers_reply World.session_active
           (JDict [("cmd", JStr "step")])
           (World.wire World.chunk_braces World.reply_ok)
           _ World.session_active
           [SockSend 70 (JDict [("cmd", JStr "step")])]);
    reflexivity.
Defined.

(** An exchange writes to the socket once and changes nothing of the
    session but its read buffer. *)
Theorem exchange_keeps_session session command w :
  let '(_, session', trace) := send_command session command w in
  trace = [SockSend (socket session) command]
  /\ session_id session' = session_id session
  /\ container session' = container session
  /\ socket session' = socket session
  /\ game_file session' = game_file session
  /\ observation session' = observation session
  /\ admissible_commands session' = admissible_commands session
  /\ status session' = status session
  /\ created_at session' = created_at session
  /\ last_active_at session' = last_active_at session.
Proof.
  destruct (send_command_session session command w) as [buf Hbuf].
  assert (Htrace : (send_command session command w).2
                   = [SockSend (socket session) command]).
  { unfold send_command, _send_command_sync, _read_from_stdout.
    destruct (sendall w); [|reflexivity].
    destruct (Channel.read_loop _ _) as [line rest| |]; [|reflexivity..].
    destruct (_extract_json_line (loads w) line) as [text|e]; [|reflexivity].
    now destruct (loads w text). }
  destruct (send_command session command w) as [[reply session'] trace].
  cbn [fst snd] in *. subst. now repeat split.
Qed.

End ExchangeProps.

Module PathProps.

Lemma prefix_app (p s : string) : String.prefix p (p ++ s)%string = true.
Proof.
  induction p as [|c p IH]; [now destruct s|].
  change (String c p ++ s)%string with (String c (p ++ s)%string).
  cbn [String.prefix]. destruct (ascii_dec c c); [exact IH|congruence].
Qed.

Lemma str_drop_app (p s : string) :
  Py.str_drop (String.length p) (p ++ s)%string = s.
Proof. induction p as [|c p IH]; [reflexivity|exact IH]. Qed.

(** A host path under the data directory is moved under the container's
    data directory, the rest of the path unchanged; a path that does not
    start with the host data directory is passed on as it is. *)
Theorem to_container_path_translates (cfg : ServerConfig) :
  (forall rest,
      _to_container_path cfg (data_host_path cfg ++ rest)%string
      = (data_container_path cfg ++ rest)%string)
  /\ (forall host_path,
        Py.startswith host_path (data_host_path cfg) = false ->
        _to_container_path cfg host_path = host_path).
Proof.
  unfold _to_container_path, Py.startswith. split.
  - intros rest. now rewrite prefix_app, str_drop_app.
  - intros host_path H. now rewrite H.
Qed.

Lemma to_container_path_translates_witness :
  _to_container_path World.cfg
    "/home/u/.cache/alfworld/look_at_obj_in_light-Mug/trial_2/game.tw-pddl"
  = "/data/look_at_obj_in_light-Mug/trial_2/game.tw-pddl"
  /\ _to_container_path World.cfg "/tmp/game.tw-pddl" = "/tmp/game.tw-pddl".
Proof.
  split.
  - apply (proj1 (to_container_path_translates World.cfg)
             "/look_at_obj_in_light-Mug/trial_2/game.tw-pddl").
  - apply (proj2 (to_container_path_translates World.cfg)).
    reflexivity.
Defined.

End PathProps.

Module SubstringFacts.

Lemma prefix_spec (p s : string) :
  String.prefix p s = true <-> exists rest, s = (p ++ rest)%string.
Proof.
  revert s. induction p as [|c p IH]; intros s.
  - split; [intros _; now exists s|intros _; now destruct s].
  - destruct s as [|c' s]; cbn [String.prefix].
    + split; [discriminate|]. intros [rest H]. discriminate.
    + destruct (ascii_dec c c') as [->|Hne].
      * rewrite IH. split; intros [rest H]; exists rest.
        -- change (String c' p ++ rest)%string with (String c' (p ++ rest)%string).
           now rewrite H.
        -- change (String c' p ++ rest)%string with (String c' (p ++ rest)%string) in H.
           now injection H.
      * split; [discriminate|]. intros [rest H].
        change (String c p ++ rest)%string with (String c (p ++ rest)%string) in H.
        injection H as H _. congruence.
Qed.

(** [Py.contains needle hay] holds exactly when [needle] occurs in [hay]. *)
Lemma contains_spec (needle hay : string) :
  Py.contains needle hay = true
  <-> exists before after, hay = (before ++ needle ++ after)%string.
Proof.
  induction hay as [|c hay IH].
  - cbn [Py.contains]. destruct (String.prefix needle "") eqn:Hp.
    + split; [intros _|reflexivity]. apply prefix_spec in Hp as [rest H].
      now exists "", rest.
    + split; [discriminate|]. intros (before & after & H).
      destruct before; [|discriminate].
      assert (String.prefix needle "" = true) by (apply prefix_spec; now exists after).
      congruence.
  - cbn [Py.contains]. destruct (String.prefix needle (String c hay)) eqn:Hp.
    + split; [intros _|reflexivity]. apply prefix_spec in Hp as [rest H].
      now exists "", rest.
    + rewrite IH. split.
      * intros (before & after & ->). now exists (String c before), after.
      * intros (before & after & H). destruct before as [|c' before].
        -- assert (String.prefix needle (String c hay) = true)
             by (apply prefix_spec; now exists after).
           congruence.
        -- change (String c' before ++ needle ++ after)%string
             with (String c' (before ++ needle ++ after)%string) in H.
           injection H as _ H. now exists before, after.
Qed.

End SubstringFacts.

Module SelectionProps.
Import RegistryFacts.

Lemma candidates_cases files task_type :
  candidates files task_type = files
  \/ exists t name,
       task_type = Some t /\ TASK_TYPES t = Some name
       /\ candidates files task_type
          = List.filter (fun g => Py.contains name g) files
       /\ candidates files task_type <> [].
Proof.
  unfold candidates. destruct task_type as [t|]; [|now left].
  destruct (TASK_TYPES t) as [name|] eqn:Hname; [|now left].
  destruct (List.filter _ files) as [|g gs] eqn:Hf; [now left|].
  right. exists t, name. split; [reflexivity|]. split; [exact Hname|].
  split; [first [reflexivity | symmetry; exact Hf | now rewrite Hf]|discriminate].
Qed.

(** Whatever the task type, a game file picked at random comes from the
    pool of discovered files, and the pick fails only when the pool is
    empty. *)
Theorem pick_is_from_pool files task_type r :
  (files <> [] ->
   exists g, pick_game_file files None task_type r = Ok g /\ In g files)
  /\ (files = [] ->
      pick_game_file files None task_type r
      = Raise (PyError "IndexError" "Cannot choose from an empty sequence")).
Proof.
  split.
  - intros Hpool. unfold pick_game_file.
    destruct (candidates_cases files task_type)
      as [->|(t & name & _ & _ & Heq & Hne)].
    + now apply random_choice_member.
    + destruct (random_choice_member r _ Hne) as (g & Hg & Hin).
      exists g. split; [exact Hg|]. rewrite Heq in Hin.
      now apply filter_In in Hin.
  - intros ->. unfold pick_game_file.
    destruct (candidates_cases [] task_type) as [->|(t & name & _ & _ & Heq & Hne)];
      [reflexivity|]. now rewrite Heq in Hne.
Qed.

Lemma pick_is_from_pool_witness :
  exists g,
    pick_game_file World.files None (Some 2%Z) 5 = Ok g /\ In g World.files.
Proof.
  apply (proj1 (pick_is_from_pool World.files (Some 2%Z) 5)). discriminate.
Defined.

(** With a known task type, the picked file has the name of the task type
    in its path whenever some file of the pool has; when none has, the
    filter is dropped and the whole pool is the set of candidates. *)
Theorem pick_honours_task_type files t name r :
  TASK_TYPES t = Some name ->
  (forall g0,
      In g0 files -> Py.contains name g0 = true ->
      exists g, pick_game_file files None (Some t) r = Ok g
                /\ In g files /\ Py.contains name g = true)
  /\ ((forall g0, In g0 files -> Py.contains name g0 = false) ->
      candidates files (Some t) = files).
Proof.
  intros Hname. split.
  - intros g0 Hin Hmatch.
    assert (Hf : In g0 (List.filter (fun g => Py.contains name g) files))
      by (apply filter_In; now split).
    unfold pick_game_file, candidates. rewrite Hname.
    destruct (List.filter _ files) as [|g1 gs] eqn:Heq; [destruct Hf|].
    destruct (random_choice_member r (g1 :: gs)) as (g & Hg & Hg_in);
      [discriminate|].
    exists g. split; [exact Hg|]. rewrite <- Heq in Hg_in.
    now apply filter_In in Hg_in.
  - intros Hnone. unfold candidates. rewrite Hname.
    destruct (List.filter _ files) as [|g1 gs] eqn:Heq; [reflexivity|].
    assert (Hin : In g1 (List.filter (fun g => Py.contains name g) files))
      by (rewrite Heq; now left).
    apply filter_In in Hin as [Hin Hc]. rewrite (Hnone g1 Hin) in Hc. discriminate.
Qed.

Lemma pick_honours_task_type_witness :
  exists g,
    pick_game_file World.files None (Some 2%Z) 0 = Ok g
    /\ In g World.files /\ Py.contains "look_at_obj_in_light" g = true.
Proof.
  apply (proj1 (pick_honours_task_type World.files 2 "look_at_obj_in_light" 0
                  eq_refl)
           "/home/u/.cache/alfworld/look_at_obj_in_light-Mug/trial_2/game.tw-pddl").
  - right. now left.
  - reflexivity.
Defined.

End SelectionProps.

Module LifecycleProps.
Import RegistryFacts.

(** A successful [create_session]: with a permit free, a game file picked,
    the container started and attached, and an init reply that is an object
    with status ["ok"], the call returns an active session that carries the
    reply's observation and admissible commands, stores it in the map under
    its fresh id, keeps one permit, and kills nothing. *)
Theorem create_session_success sm requested task_type env g c sock
    items session1 sent :
  Semaphore.locked (_semaphore sm) = false ->
  pick_game_file (game_files sm) requested task_type (env_random env) = Ok g ->
  env_run env = Done c ->
  env_attach env = Done sock ->
  send_command (fresh_session env c sock g) (init_command sm g) (env_init env)
  = (JDict items, session1, sent) ->
  Json.eq_str (Json.get items "status" JNull) "ok" = true ->
  exists session sm',
    create_session sm requested task_type env
    = Some (Ok session, sm', [DockerRun (env_uuid env); DockerAttach c] ++ sent)
    /\ session_id session = env_uuid env
    /\ container session = c
    /\ game_file session = g
    /\ status session = "active"
    /\ observation session = Json.get items "observation" (JStr "")
    /\ admissible_commands session
       = Json.get items "admissible_commands" (JList [])
    /\ _sessions sm' = <[env_uuid env := session]> (_sessions sm)
    /\ S (Semaphore._value (_semaphore sm')) = Semaphore._value (_semaphore sm)
    /\ config sm' = config sm /\ game_files sm' = game_files sm.
Proof.
  intros Hl Hpick Hrun Hattach Hsend Hok.
  destruct (create_session_admitted sm requested task_type env Hl)
    as (sem & Hacq & ->).
  destruct (send_command_session (fresh_session env c sock g)
              (init_command sm g) (env_init env)) as [buf Hbuf].
  rewrite Hsend in Hbuf. cbn [fst snd] in Hbuf.
  unfold create_session_body. cbn [game_files config set_semaphore].
  rewrite Hpick, Hrun, Hattach.
  unfold fresh_session, init_command in Hsend. rewrite Hsend, Hok. cbn [negb].
  eexists _, _. split; [reflexivity|].
  rewrite Hbuf. cbn.
  rewrite !insert_insert_eq.
  apply acquire_positive in Hacq. repeat split. now rewrite Hacq.
Qed.

Lemma create_session_success_witness :
  exists session sm',
    create_session World.manager None None World.env_ok
    = Some (Ok session, sm',
            [DockerRun World.sid; DockerAttach 7]
            ++ [SockSend 70 (init_command World.manager
                               "/home/u/.cache/alfworld/pick_and_place_simple-Book/trial_1/game.tw-pddl")])
    /\ observation session = JStr "You are in the middle of a room."
    /\ _sessions sm' = <[World.sid := session]> (_sessions World.manager).
Proof.
  destruct (create_session_success World.manager None None World.env_ok
              "/home/u/.cache/alfworld/pick_and_place_simple-Book/trial_1/game.tw-pddl"
              7 70
              [("status", JStr "ok");
               ("observation", JStr "You are in the middle of a room.");
               ("admissible_commands", JList [JStr "look"; JStr "go to desk 1"])]
              (fresh_session World.env_ok 7 70
                 "/home/u/.cache/alfworld/pick_and_place_simple-Book/trial_1/game.tw-pddl")
              [SockSend 70 (init_command World.manager
                              "/home/u/.cache/alfworld/pick_and_place_simple-Book/trial_1/game.tw-pddl")]
              eq_refl eq_refl eq_refl eq_refl eq_refl eq_refl)
    as (session & sm' & Hrun & _ & _ & _ & _ & Hobs & _ & Hmap & _).
  exists session, sm'. repeat split; assumption.
Defined.

(** When the init reply is an object whose status is not ["ok"], the call
    rolls back: the container is killed after the exchange, and the manager
    is left exactly as it was before the call, map and permits included;
    the container error carries the reply's message. *)
Theorem create_session_init_rollback sm requested task_type env g c sock
    items session1 sent :
  Semaphore.locked (_semaphore sm) = false ->
  _sessions sm !! env_uuid env = None ->
  pick_game_file (game_files sm) requested task_type (env_random env) = Ok g ->
  env_run env = Done c ->
  env_attach env = Done sock ->
  send_command (fresh_session env c sock g) (init_command sm g) (env_init env)
  = (JDict items, session1, sent) ->
  Json.eq_str (Json.get items "status" JNull) "ok" = false ->
  create_session sm requested task_type env
  = Some (Raise (ContainerError
                   (InitFailed (Json.get items "message" (JStr "unknown error")))),
          sm,
          [DockerRun (env_uuid env); DockerAttach c] ++ sent ++ [DockerKill c]).
Proof.
  intros Hl Hfresh Hpick Hrun Hattach Hsend Hstatus.
  unfold fresh_session, init_command in Hsend.
  eapply create_session_init_failed; eassumption.
Qed.

Lemma create_session_init_rollback_witness :
  create_session World.manager None None Cases.env_init_error
  = Some (Raise (ContainerError (InitFailed (JStr "Game file not found"))),
          World.manager,
          [DockerRun World.sid; DockerAttach 7]
          ++ [SockSend 70 (init_command World.manager
                             "/home/u/.cache/alfworld/pick_and_place_simple-Book/trial_1/game.tw-pddl")]
          ++ [DockerKill 7]).
Proof.
  apply (create_session_init_rollback World.manager None None
           Cases.env_init_error
           "/home/u/.cache/alfworld/pick_and_place_simple-Book/trial_1/game.tw-pddl"
           7 70
           [("status", JStr "error"); ("message", JStr "Game file not found")]
           (fresh_session Cases.env_init_error 7 70
              "/home/u/.cache/alfworld/pick_and_place_simple-Book/trial_1/game.tw-pddl"));
    reflexivity.
Defined.

(** When [containers.run] raises, there is no container: the call attaches
    nothing, sends nothing and kills nothing, gives the permit back, and
    leaves the manager exactly as it was; the cause is wrapped in a
    container error. *)
Theorem create_session_start_failure sm requested task_type env g class text :
  Semaphore.locked (_semaphore sm) = false ->
  pick_game_file (game_files sm) requested task_type (env_random env) = Ok g ->
  env_run env = Fails class text ->
  create_session sm requested task_type env
  = Some (Raise (ContainerError (CreateFailed (PyError class text))), sm,
          [DockerRun (env_uuid env)]).
Proof.
  intros Hl Hpick Hrun.
  destruct (create_session_admitted sm requested task_type env Hl)
    as (sem & Hacq & ->).
  unfold create_session_body. cbn [game_files set_semaphore].
  rewrite Hpick, Hrun. now rewrite (release_acquired sm sem Hacq).
Qed.

Lemma create_session_start_failure_witness :
  create_session World.manager None None Cases.env_run_fails
  = Some (Raise (ContainerError
                   (CreateFailed (PyError "ImageNotFound" "No such image"))),
          World.manager, [DockerRun World.sid]).
Proof.
  apply (create_session_start_failure World.manager None None
           Cases.env_run_fails
           "/home/u/.cache/alfworld/pick_and_place_simple-Book/trial_1/game.tw-pddl");
    reflexivity.
Defined.

End LifecycleProps.

Module DeleteProps.
Import RegistryFacts.

(** Deleting a session that is in the map kills its container once, takes
    the session out of the map, gives one permit back and touches nothing
    else: every other session, the configuration and the game files are as
    before. *)
Theorem delete_session_frame sm sid session kill :
  _sessions sm !! sid = Some session ->
  exists sm',
    delete_session sm sid kill = (Ok tt, sm', [DockerKill (container session)])
    /\ _sessions sm' !! sid = None
    /\ (forall other, other <> sid -> _sessions sm' !! other = _sessions sm !! other)
    /\ S (active_session_count sm') = active_session_count sm
    /\ Semaphore._value (_semaphore sm') = S (Semaphore._value (_semaphore sm))
    /\ config sm' = config sm /\ game_files sm' = game_files sm.
Proof.
  intros Hin. rewrite (delete_session_present sm sid session kill Hin).
  eexists. split; [reflexivity|]. cbn.
  split; [apply lookup_delete_eq|].
  split; [intros other Hne; now apply lookup_delete_ne|].
  split; [|now repeat split].
  unfold active_session_count. cbn.
  pose proof (size_delete_present _ _ _ Hin). lia.
Qed.

Lemma delete_session_frame_witness :
  exists sm',
    delete_session Cases.manager_two World.sid World.kill_ok
    = (Ok tt, sm', [DockerKill 7])
    /\ _sessions sm' !! World.sid = None
    /\ _sessions sm' !! Cases.sid2 = Some Cases.session_two.
Proof.
  destruct (delete_session_frame Cases.manager_two World.sid
              World.session_active World.kill_ok eq_refl)
    as (sm' & Hdel & Hgone & Hother & _).
  exists sm'. split; [exact Hdel|]. split; [exact Hgone|].
  rewrite Hother by discriminate. reflexivity.
Defined.

Lemma kill_events_cons (m : gmap string Session) sid s ids :
  m !! sid = Some s ->
  kill_events m (sid :: ids) = DockerKill (container s) :: kill_events m ids.
Proof. intros H. unfold kill_events. cbn. now rewrite H. Qed.

Lemma kill_events_delete (m : gmap string Session) sid ids :
  sid ∉ ids -> kill_events (delete sid m) ids = kill_events m ids.
Proof.
  induction ids as [|j ids IH]; [reflexivity|]. intros Hfresh.
  apply not_elem_of_cons in Hfresh as [Hne Hfresh].
  unfold kill_events in *. cbn.
  rewrite lookup_delete_ne by congruence. now rewrite IH.
Qed.

Lemma kill_events_length (m : gmap string Session) ids :
  (forall sid, sid ∈ ids -> is_Some (m !! sid)) ->
  length (kill_events m ids) = length ids.
Proof.
  induction ids as [|j ids IH]; [reflexivity|]. intros Hin.
  destruct (Hin j) as [s Hs]; [left|].
  rewrite (kill_events_cons _ _ _ _ Hs). cbn [length]. f_equal.
  apply IH. intros sid H. apply Hin. now right.
Qed.

(** The loop over ids that are all in the map and all different. *)
Lemma delete_each_present ids : forall sm kill,
  NoDup ids ->
  (forall sid, sid ∈ ids -> is_Some (_sessions sm !! sid)) ->
  exists sm',
    delete_each sm ids kill = (ids, sm', kill_events (_sessions sm) ids)
    /\ (forall sid, sid ∈ ids -> _sessions sm' !! sid = None)
    /\ (forall sid, sid ∉ ids -> _sessions sm' !! sid = _sessions sm !! sid)
    /\ Semaphore._value (_semaphore sm')
       = Semaphore._value (_semaphore sm) + length ids
    /\ config sm' = config sm /\ game_files sm' = game_files sm.
Proof.
  induction ids as [|sid ids IH]; intros sm kill Hnd Hin.
  - exists sm. cbn. repeat split; try reflexivity; try lia.
    intros sid H. now apply not_elem_of_nil in H.
  - apply NoDup_cons in Hnd as [Hfresh Hnd].
    destruct (Hin sid) as [s Hs]; [left|].
    cbn [delete_each]. rewrite (delete_session_present sm sid s kill Hs).
    set (sm1 := release_permit (set_sessions sm (delete sid (_sessions sm)))).
    destruct (IH sm1 kill Hnd) as (sm' & Hrun & Hgone & Hkeep & Hval & Hcfg & Hgf).
    { intros j Hj. unfold sm1. cbn. rewrite lookup_delete_ne by (intros ->; tauto).
      apply Hin. now right. }
    exists sm'. rewrite Hrun. split.
    { f_equal. rewrite (kill_events_cons _ _ _ _ Hs). cbn [app]. f_equal.
      unfold sm1. cbn. now apply kill_events_delete. }
    split; [|split; [|split; [|split]]].
    + intros j Hj. apply elem_of_cons in Hj as [->|Hj]; [|now apply Hgone].
      rewrite Hkeep by exact Hfresh. unfold sm1. cbn. apply lookup_delete_eq.
    + intros j Hj. apply not_elem_of_cons in Hj as [Hne Hj].
      rewrite Hkeep by exact Hj. unfold sm1. cbn. now apply lookup_delete_ne.
    + rewrite Hval. unfold sm1. cbn. lia.
    + now rewrite Hcfg.
    + now rewrite Hgf.
Qed.

Lemma session_keys_spec sm sid :
  sid ∈ session_keys sm <-> is_Some (_sessions sm !! sid).
Proof.
  unfold session_keys. rewrite list_elem_of_fmap. split.
  - intros ([k s] & -> & Hin). apply elem_of_map_to_list in Hin. now exists s.
  - intros [s Hs]. exists (sid, s). split; [reflexivity|].
    now apply elem_of_map_to_list.
Qed.

Lemma delete_every_key sm kill :
  exists sm',
    delete_each sm (session_keys sm) kill
    = (session_keys sm, sm', kill_events (_sessions sm) (session_keys sm))
    /\ _sessions sm' = ∅
    /\ Semaphore._value (_semaphore sm')
       = Semaphore._value (_semaphore sm) + active_session_count sm
    /\ config sm' = config sm /\ game_files sm' = game_files sm.
Proof.
  destruct (delete_each_present (session_keys sm) sm kill)
    as (sm' & Hrun & Hgone & Hkeep & Hval & Hcfg & Hgf).
  { apply NoDup_fst_map_to_list. }
  { intros sid. apply session_keys_spec. }
  exists sm'. split; [exact Hrun|]. split; [|split; [|now split]].
  - apply map_eq. intros sid. rewrite lookup_empty.
    destruct (decide (sid ∈ session_keys sm)) as [Hin|Hout]; [now apply Hgone|].
    rewrite Hkeep by exact Hout.
    destruct (_sessions sm !! sid) eqn:Hs; [|reflexivity].
    exfalso. apply Hout, session_keys_spec. now rewrite Hs.
  - rewrite Hval. unfold session_keys, active_session_count.
    now rewrite length_fmap, length_map_to_list.
Qed.

(** [delete_all_sessions] deletes every session: it returns all the ids of
    the map, kills the container of each, leaves the map empty and gives
    back one permit per session. *)
Theorem delete_all_sessions_empties sm kill :
  exists sm',
    delete_all_sessions sm kill
    = (session_keys sm, sm', kill_events (_sessions sm) (session_keys sm))
    /\ _sessions sm' = ∅
    /\ length (kill_events (_sessions sm) (session_keys sm))
       = active_session_count sm
    /\ Semaphore._value (_semaphore sm')
       = Semaphore._value (_semaphore sm) + active_session_count sm.
Proof.
  destruct (delete_every_key sm kill) as (sm' & Hrun & Hempty & Hval & _).
  exists sm'. split; [exact Hrun|]. split; [exact Hempty|]. split; [|exact Hval].
  rewrite kill_events_length by (intros sid; apply session_keys_spec).
  unfold session_keys, active_session_count.
  now rewrite length_fmap, length_map_to_list.
Qed.

End DeleteProps.

Module SweepProps.
Import RegistryFacts DeleteProps.

(** [shutdown] leaves no session behind: every container is killed, the map
    is empty and every permit of a session is given back. *)
Theorem shutdown_empties sm kill :
  exists sm',
    shutdown sm kill = (sm', kill_events (_sessions sm) (session_keys sm))
    /\ _sessions sm' = ∅
    /\ length (kill_events (_sessions sm) (session_keys sm))
       = active_session_count sm
    /\ Semaphore._value (_semaphore sm')
       = Semaphore._value (_semaphore sm) + active_session_count sm.
Proof.
  destruct (delete_every_key sm kill) as (sm' & Hrun & Hempty & Hval & _).
  exists sm'. unfold shutdown. rewrite Hrun.
  split; [reflexivity|]. split; [exact Hempty|]. split; [|exact Hval].
  rewrite kill_events_length by (intros sid; apply session_keys_spec).
  unfold session_keys, active_session_count.
  now rewrite length_fmap, length_map_to_list.
Qed.

(** [DELETE /sessions] answers with the ids of all sessions and their
    number, and leaves the map empty. *)
Theorem delete_all_route_reports_all sm kill :
  exists sm' trace,
    RoutesMore.delete_all_sessions sm kill
    = (JDict [("status", JStr "ok");
              ("deleted", JList (map JStr (session_keys sm)));
              ("count", JInt (Z.of_nat (active_session_count sm)))],
       sm', trace)
    /\ _sessions sm' = ∅
    /\ RoutesMore.health_check sm'
       = {| health_status := "ok"; health_active_sessions := 0;
            health_max_sessions := max_sessions (config sm);
            health_available_games := length (game_files sm) |}.
Proof.
  destruct (delete_every_key sm kill) as (sm' & Hrun & Hempty & _ & Hcfg & Hgf).
  exists sm', (kill_events (_sessions sm) (session_keys sm)).
  unfold RoutesMore.delete_all_sessions, delete_all_sessions. rewrite Hrun.
  split; [|split; [exact Hempty|]].
  - unfold session_keys, active_session_count.
    now rewrite length_fmap, length_map_to_list.
  - unfold RoutesMore.health_check, active_session_count.
    now rewrite Hempty, Hcfg, Hgf.
Qed.

Lemma filter_keys_nodup (P : string * Session -> bool) l :
  NoDup l.*1 -> NoDup (List.filter P l).*1.
Proof.
  induction l as [|[k s] l IH]; [trivial|]. cbn [fmap list_fmap List.filter].
  intros Hnd. apply NoDup_cons in Hnd as [Hk Hnd].
  destruct (P (k, s)); [|now apply IH].
  cbn. apply NoDup_cons. split; [|now apply IH].
  intros Hin. apply Hk. apply list_elem_of_fmap in Hin as ([k' s'] & -> & Hin).
  apply list_elem_of_In, filter_In in Hin as [Hin _].
  apply list_elem_of_fmap. exists (k', s'). split; [reflexivity|].
  now apply list_elem_of_In.
Qed.

Lemma idle_keys_spec sm now sid :
  sid ∈ (List.filter
           (fun kv : string * Session =>
              (idle_timeout_s (config sm) * 1000000 <? now - last_active_at kv.2)%Z)
           (map_to_list (_sessions sm))).*1
  <-> exists s, _sessions sm !! sid = Some s /\ is_idle (config sm) now s = true.
Proof.
  rewrite list_elem_of_fmap. split.
  - intros ([k s] & -> & Hin). apply list_elem_of_In, filter_In in Hin as [Hin Hidle].
    apply list_elem_of_In, elem_of_map_to_list in Hin. now exists s.
  - intros (s & Hs & Hidle). exists (sid, s). split; [reflexivity|].
    apply list_elem_of_In, filter_In. split; [|exact Hidle].
    now apply list_elem_of_In, elem_of_map_to_list.
Qed.

(** A sweep of the reaper removes exactly the sessions whose last activity
    is more than [idle_timeout_s] seconds back: each of them is gone from
    the map, every other session is in the map unchanged, and the
    configuration is untouched. *)
Theorem cleanup_sweep_removes_idle sm now kill sid :
  _sessions (cleanup_sweep sm now kill).1 !! sid
  = match _sessions sm !! sid with
    | Some s => if is_idle (config sm) now s then None else Some s
    | None => None
    end
  /\ config (cleanup_sweep sm now kill).1 = config sm.
Proof.
  unfold cleanup_sweep.
  set (ids := (List.filter _ (map_to_list (_sessions sm))).*1).
  destruct (delete_each_present ids sm kill)
    as (sm' & Hrun & Hgone & Hkeep & _ & Hcfg & _).
  { apply filter_keys_nodup, NoDup_fst_map_to_list. }
  { intros j Hj. apply idle_keys_spec in Hj as (s & Hs & _). now exists s. }
  rewrite Hrun. cbn [fst]. split; [|exact Hcfg].
  destruct (decide (sid ∈ ids)) as [Hin|Hout].
  - rewrite (Hgone sid Hin). apply idle_keys_spec in Hin as (s & -> & ->).
    reflexivity.
  - rewrite (Hkeep sid Hout). destruct (_sessions sm !! sid) as [s|] eqn:Hs;
      [|reflexivity].
    destruct (is_idle (config sm) now s) eqn:Hidle; [|reflexivity].
    exfalso. apply Hout, idle_keys_spec. now exists s.
Qed.

End SweepProps.

Module CapacityProps.
Import RegistryFacts.

Lemma accounted_bound sm :
  permits_accounted sm -> active_session_count sm <= max_sessions (config sm).
Proof. unfold permits_accounted, outstanding. lia. Qed.

Lemma run_operations_accounted ops : forall sm sm',
  permits_accounted sm ->
  all_well_behaved sm ops ->
  run_operations sm ops = Some sm' ->
  permits_accounted sm'.
Proof.
  induction ops as [|op ops IH]; intros sm sm' Hinv Hops Hrun.
  - now injection Hrun as <-.
  - cbn [run_operations] in Hrun. destruct Hops as [Hop Hrest].
    destruct (run_operation sm op) as [sm1|] eqn:H1; [|discriminate].
    eapply IH; [|apply Hrest; reflexivity|exact Hrun].
    eapply run_operation_accounted; eauto.
Qed.

(** From a new manager, through any sequence of completed operations in
    which every [create_session] meets a fresh id and an init reply that is
    an object, the map never holds more than [max_sessions] sessions, and
    the permits taken are as many as the sessions. *)
Theorem capacity_never_exceeded cfg files ops sm' :
  all_well_behaved (new_manager cfg files) ops ->
  run_operations (new_manager cfg files) ops = Some sm' ->
  active_session_count sm' <= max_sessions (config sm')
  /\ permits_accounted sm'.
Proof.
  intros Hops Hrun.
  assert (Hinv : permits_accounted sm').
  { eapply run_operations_accounted; [|exact Hops|exact Hrun].
    unfold permits_accounted, outstanding, active_session_count, new_manager.
    cbn. rewrite map_size_empty. lia. }
  split; [now apply accounted_bound|exact Hinv].
Qed.

Lemma capacity_never_exceeded_witness :
  exists sm',
    run_operations (new_manager World.cfg World.files)
      [CreateSession None None World.env_ok;
       DeleteSession World.sid World.kill_ok;
       CreateSession None None World.env_ok] = Some sm'
    /\ active_session_count sm' <= max_sessions (config sm').
Proof.
  eexists. split; [reflexivity|].
  refine (proj1 (capacity_never_exceeded World.cfg World.files
                   [CreateSession None None World.env_ok;
                    DeleteSession World.sid World.kill_ok;
                    CreateSession None None World.env_ok] _ _ eq_refl)).
  split.
  { split; [reflexivity|]. intros r sm' trace H.
    injection H as <- _ _. discriminate. }
  intros sm1 H1. injection H1 as <-. split; [exact I|].
  intros sm2 H2. injection H2 as <-. split.
  { split; [reflexivity|]. intros r sm' trace H.
    injection H as <- _ _. discriminate. }
  intros sm3 _. exact I.
Defined.

(** With the permits accounted, admission is exact: [create_session] raises
    [NoSlotsAvailable] when the map holds [max_sessions] sessions, and only
    then. *)
Theorem admission_is_exact sm requested task_type env :
  permits_accounted sm ->
  (active_session_count sm = max_sessions (config sm) ->
   create_session sm requested task_type env
   = Some (Raise (NoSlotsAvailable (max_sessions (config sm))), sm, []))
  /\ (active_session_count sm < max_sessions (config sm) ->
      forall n sm' trace,
        create_session sm requested task_type env
        <> Some (Raise (NoSlotsAvailable n), sm', trace)).
Proof.
  unfold permits_accounted, outstanding. intros Hinv. split.
  - intros Hfull. apply create_session_no_slots.
    unfold Semaphore.locked. apply Nat.eqb_eq. lia.
  - intros Hroom n sm' trace.
    assert (Hl : Semaphore.locked (_semaphore sm) = false).
    { unfold Semaphore.locked. apply Nat.eqb_neq. lia. }
    destruct (create_session_admitted sm requested task_type env Hl)
      as (sem & _ & ->).
    pose proof (create_session_body_end (set_semaphore sm sem)
                  requested task_type env) as Hend.
    destruct (create_session_body _ _ _ _) as [[r sm0] trace0].
    cbn [fst snd] in Hend. inversion Hend; subst; discriminate.
Qed.

Lemma admission_is_exact_witness :
  permits_accounted Cases.manager_two
  /\ create_session Cases.manager_two None None World.env_ok
     = Some (Raise (NoSlotsAvailable 2), Cases.manager_two, []).
Proof.
  assert (H : permits_accounted Cases.manager_two) by reflexivity.
  split; [exact H|].
  apply (proj1 (admission_is_exact Cases.manager_two None None
                  World.env_ok H)).
  reflexivity.
Defined.

End CapacityProps.

Module RoundTripProps.
Import RegistryFacts.

(** Creating a session and deleting it again restores the manager: after a
    successful [create_session] under a fresh id, the session is found by
    [get_session]; [delete_session] of its id then succeeds, kills its
    container, and leaves the manager exactly as it was before the
    creation, after which the id is not found. *)
Theorem create_then_delete_restores sm requested task_type env session sm1 trace kill :
  _sessions sm !! env_uuid env = None ->
  create_session sm requested task_type env = Some (Ok session, sm1, trace) ->
  get_session sm1 (env_uuid env) = Ok session
  /\ delete_session sm1 (env_uuid env) kill
     = (Ok tt, sm, [DockerKill (container session)])
  /\ get_session sm (env_uuid env) = Raise (SessionNotFound (env_uuid env)).
Proof.
  intros Hfresh Hrun.
  destruct (Semaphore.locked (_semaphore sm)) eqn:Hl.
  { now rewrite create_session_no_slots in Hrun. }
  destruct (create_session_admitted sm requested task_type env Hl)
    as (sem & Hacq & Heq).
  rewrite Heq in Hrun. clear Heq.
  pose proof (create_session_body_end (set_semaphore sm sem)
                requested task_type env) as Hend.
  destruct (create_session_body _ _ _ _) as [[r sm0] trace0].
  cbn [fst snd] in Hend.
  inversion Hend; subst; try discriminate. injection Hrun as <- <- <-.
  split; [unfold get_session; now rewrite sessions_set_sessions, lookup_insert_eq|].
  split.
  - rewrite (delete_session_present _ (env_uuid env) session0 kill)
      by apply lookup_insert_eq.
    rewrite set_sessions_twice, sessions_set_sessions, delete_insert_eq.
    rewrite delete_id by exact Hfresh.
    change (set_sessions (set_semaphore sm sem) (_sessions sm))
      with (set_sessions (set_semaphore sm sem) (_sessions (set_semaphore sm sem))).
    now rewrite set_sessions_same, (release_acquired sm sem Hacq).
  - unfold get_session. now rewrite Hfresh.
Qed.

Lemma create_then_delete_restores_witness :
  exists session sm1 trace,
    create_session World.manager None None World.env_ok
    = Some (Ok session, sm1, trace)
    /\ get_session sm1 World.sid = Ok session
    /\ delete_session sm1 World.sid World.kill_ok
       = (Ok tt, World.manager, [DockerKill (container session)]).
Proof.
  eexists _, _, _. split; [reflexivity|].
  refine (let H := create_then_delete_restores World.manager None None
                     World.env_ok _ _ _ World.kill_ok eq_refl eq_refl in
          conj (proj1 H) (proj1 (proj2 H))).
Defined.

(** After a delete that succeeds a permit is free: the next
    [create_session] is admitted, whatever it then meets. *)
Theorem delete_frees_a_slot sm sid kill sm1 trace requested task_type env :
  delete_session sm sid kill = (Ok tt, sm1, trace) ->
  forall n sm2 trace2,
    create_session sm1 requested task_type env
    <> Some (Raise (NoSlotsAvailable n), sm2, trace2).
Proof.
  intros Hdel n sm2 trace2.
  assert (Hl : Semaphore.locked (_semaphore sm1) = false).
  { unfold delete_session in Hdel. destruct (_sessions sm !! sid); [|discriminate].
    now injection Hdel as <- _. }
  destruct (create_session_admitted sm1 requested task_type env Hl)
    as (sem & _ & ->).
  pose proof (create_session_body_end (set_semaphore sm1 sem)
                requested task_type env) as Hend.
  destruct (create_session_body _ _ _ _) as [[r sm0] trace0].
  cbn [fst snd] in Hend. inversion Hend; subst; discriminate.
Qed.

Lemma delete_frees_a_slot_witness :
  exists sm1 trace,
    delete_session Cases.manager_two World.sid World.kill_ok = (Ok tt, sm1, trace)
    /\ create_session sm1 None None World.env_ok
       <> Some (Raise (NoSlotsAvailable 2), sm1, []).
Proof.
  eexists _, _. split; [reflexivity|].
  apply (delete_frees_a_slot Cases.manager_two World.sid World.kill_ok _ _
           None None World.env_ok eq_refl).
Defined.

(** An id that is not in the map is not found by any handler: step, get and
    delete raise [SessionNotFound] for it, reach neither the worker nor
    Docker, and leave the manager as it was. *)
Theorem unknown_id_not_found sm sid :
  _sessions sm !! sid = None ->
  (forall batcher lax action env,
      Routes.step_session batcher lax sm sid action env
      = (Raise (SessionNotFound sid), sm, []))
  /\ Routes.get_session sm sid = Raise (SessionNotFound sid)
  /\ (forall kill,
        Routes.delete_session sm sid kill = (Raise (SessionNotFound sid), sm, [])).
Proof.
  intros H. unfold Routes.step_session, Routes.get_session,
    Routes.delete_session, get_session, delete_session.
  rewrite H. now repeat split.
Qed.

Lemma unknown_id_not_found_witness :
  Routes.get_session World.manager World.sid
  = Raise (SessionNotFound World.sid).
Proof.
  apply (unknown_id_not_found World.manager World.sid eq_refl).
Defined.

End RoundTripProps.

Module ConfigProps.
Import PyMore Config.

Lemma split_char_nonempty sep s : split_char sep s <> [].
Proof.
  destruct s as [|c s]; [discriminate|]. cbn [split_char].
  destruct (Ascii.eqb c sep); [discriminate|].
  destruct (split_char sep s); discriminate.
Qed.

Lemma split_char_free sep s : has_char sep s = false -> split_char sep s = [s].
Proof.
  induction s as [|c s IH]; [reflexivity|]. cbn [has_char split_char].
  destruct (Ascii.eqb c sep); [discriminate|]. cbn [orb].
  intros H. now rewrite (IH H).
Qed.

Lemma split_char_app sep a b :
  has_char sep a = false ->
  split_char sep (a ++ String sep b)%string = a :: split_char sep b.
Proof.
  induction a as [|c a IH].
  - intros _. change ("" ++ String sep b)%string with (String sep b).
    cbn [split_char]. now rewrite Ascii.eqb_refl.
  - change (String c a ++ String sep b)%string
      with (String c (a ++ String sep b)%string).
    cbn [has_char split_char]. destruct (Ascii.eqb c sep); [discriminate|].
    cbn [orb]. intros H. now rewrite (IH H).
Qed.

Lemma has_char_app sep a b :
  has_char sep (a ++ b)%string = has_char sep a || has_char sep b.
Proof.
  induction a as [|c a IH]; [reflexivity|].
  change (String c a ++ b)%string with (String c (a ++ b)%string).
  cbn [has_char]. rewrite IH. now rewrite orb_assoc.
Qed.

(** Splitting at a character and joining with it again gives the string
    back. *)
Lemma join_split_char sep s : join_char sep (split_char sep s) = s.
Proof.
  induction s as [|c s IH]; [reflexivity|]. cbn [split_char].
  destruct (Ascii.eqb c sep) eqn:Hc.
  - apply Ascii.eqb_eq in Hc. subst c.
    pose proof (split_char_nonempty sep s) as Hne.
    destruct (split_char sep s) as [|p ps] eqn:Hs; [congruence|].
    change (String sep (join_char sep (p :: ps)) = String sep s).
    now rewrite IH.
  - pose proof (split_char_nonempty sep s) as Hne.
    destruct (split_char sep s) as [|p ps] eqn:Hs; [congruence|].
    rewrite <- IH. destruct ps as [|q ps]; reflexivity.
Qed.

Lemma three_parts (host cont mode : string) :
  has_char colon host = false ->
  has_char colon cont = false ->
  has_char colon mode = false ->
  split_char colon (host ++ String colon (cont ++ String colon mode))%string
  = [host; cont; mode].
Proof.
  intros Hh Hc Hm.
  rewrite (split_char_app colon host) by exact Hh.
  rewrite (split_char_app colon cont) by exact Hc.
  now rewrite (split_char_free colon mode Hm).
Qed.

(** The three properties read the three parts of a data volume
    [host:container:mode] whose parts have no colon in them; a volume
    without a colon is a host path with the defaults [/data] and [ro], and
    a volume [host:container] has the default mode [ro]. *)
Theorem data_volume_parts (host cont mode : string) :
  has_char colon host = false ->
  has_char colon cont = false ->
  has_char colon mode = false ->
  (let v := (host ++ String colon (cont ++ String colon mode))%string in
   data_host_path v = host /\ data_container_path v = cont
   /\ data_volume_mode v = mode)
  /\ (let v := (host ++ String colon cont)%string in
      data_host_path v = host /\ data_container_path v = cont
      /\ data_volume_mode v = "ro")
  /\ (data_host_path host = host /\ data_container_path host = "/data"
      /\ data_volume_mode host = "ro").
Proof.
  intros Hh Hc Hm. unfold data_host_path, data_container_path, data_volume_mode.
  rewrite !(split_char_app colon host) by exact Hh.
  rewrite (split_char_app colon cont) by exact Hc.
  rewrite (split_char_free colon mode Hm), (split_char_free colon cont Hc),
    (split_char_free colon host Hh).
  now repeat split.
Qed.

Lemma data_volume_parts_witness :
  data_host_path "/home/u/.cache/alfworld:/data:ro" = "/home/u/.cache/alfworld"
  /\ data_container_path "/home/u/.cache/alfworld:/data:ro" = "/data"
  /\ data_volume_mode "/home/u/.cache/alfworld:/data:ro" = "ro".
Proof.
  apply (proj1 (data_volume_parts "/home/u/.cache/alfworld" "/data" "ro"
                  eq_refl eq_refl eq_refl)).
Defined.

(** The validator expands the host part only: of a volume
    [host:container:mode] it keeps the container path and the mode, and the
    host path becomes the expanded one (when that has no colon in it); a
    volume without a colon is expanded whole. *)
Theorem expand_data_volume_host_only (expanduser : string -> string)
    (host cont mode : string) :
  has_char colon host = false ->
  has_char colon cont = false ->
  has_char colon mode = false ->
  (let v := expand_data_volume expanduser
              (host ++ String colon (cont ++ String colon mode))%string in
   v = (expanduser host ++ String colon (cont ++ String colon mode))%string
   /\ (has_char colon (expanduser host) = false ->
       data_host_path v = expanduser host
       /\ data_container_path v = cont /\ data_volume_mode v = mode))
  /\ expand_data_volume expanduser host = expanduser host.
Proof.
  intros Hh Hc Hm. split.
  - assert (Hv : expand_data_volume expanduser
                   (host ++ String colon (cont ++ String colon mode))%string
                 = (expanduser host ++ String colon (cont ++ String colon mode))%string).
    { unfold expand_data_volume.
      rewrite has_char_app. cbn [has_char]. rewrite Ascii.eqb_refl, orb_true_r.
      rewrite (split_char_app colon host) by exact Hh.
      rewrite (split_char_app colon cont) by exact Hc.
      now rewrite (split_char_free colon mode Hm). }
    cbv zeta. rewrite Hv. split; [reflexivity|]. intros He.
    unfold data_host_path, data_container_path, data_volume_mode.
    rewrite (three_parts (expanduser host) cont mode He Hc Hm).
    now repeat split.
  - unfold expand_data_volume. now rewrite Hh.
Qed.

Lemma expand_data_volume_host_only_witness :
  expand_data_volume (fun p => "/home/u" ++ Py.str_drop 1 p)%string
    "~/.cache/alfworld:/data:ro"
  = "/home/u/.cache/alfworld:/data:ro".
Proof.
  apply (proj1 (proj1 (expand_data_volume_host_only
                         (fun p => "/home/u" ++ Py.str_drop 1 p)%string
                         "~/.cache/alfworld" "/data" "ro"
                         eq_refl eq_refl eq_refl))).
Defined.

End ConfigProps.

Module ExtractProps.
Import PyMore.

Lemma find_char_drop c s i :
  find_char c s = Some i -> exists rest, Py.str_drop i s = String c rest.
Proof.
  revert i. induction s as [|c' s IH]; intros i; [discriminate|].
  cbn [find_char]. destruct (Ascii.eqb c' c) eqn:Hc.
  - intros [= <-]. apply Ascii.eqb_eq in Hc. subst. now exists s.
  - destruct (find_char c s) as [j|]; [|discriminate].
    intros [= <-]. exact (IH j eq_refl).
Qed.

(** The extraction returns the stripped line whenever that parses as JSON.
    Otherwise, when the parser refuses it as malformed, it returns either
    the stripped line again or, when it parses, the part of the stripped
    line from its first opening brace on: what is returned is always an
    end piece of the stripped line, and when it is not the stripped line
    itself it starts with a brace and parses.  The extraction raises only
    what the parser raises, for the stripped line or for that part of it,
    other than the refusal of malformed text. *)
Theorem extract_json_line_result (loads : string -> outcome json)
    (line : string) :
  ((exists value, loads (Py.strip line) = Done value) ->
   _extract_json_line loads line = Ok (Py.strip line))
  /\ (forall extracted,
        _extract_json_line loads line = Ok extracted ->
        (exists n, extracted = Py.str_drop n (Py.strip line))
        /\ (extracted <> Py.strip line ->
            (exists value, loads extracted = Done value)
            /\ (exists text,
                  loads (Py.strip line) = Fails "JSONDecodeError" text)
            /\ exists rest, extracted = String "{"%char rest))
  /\ (forall e,
        _extract_json_line loads line = Raise e ->
        exists class text n,
          e = PyError class text
          /\ class <> "JSONDecodeError"
          /\ loads (Py.str_drop n (Py.strip line)) = Fails class text).
Proof.
  unfold _extract_json_line.
  destruct (loads (Py.strip line)) as [value|class text] eqn:Hp.
  { split; [reflexivity|]. split; [|discriminate].
    intros extracted [= <-]. split; [now exists 0|]. congruence. }
  split; [intros [value [=]]|].
  unfold is_decode_error.
  destruct (String.eqb class "JSONDecodeError") eqn:Hclass; cbn [negb].
  2:{ split; [discriminate|]. intros e [= <-]. exists class, text, 0.
      apply String.eqb_neq in Hclass. now repeat split. }
  apply String.eqb_eq in Hclass. subst class.
  destruct (find_char "{"%char (Py.strip line)) as [start|] eqn:Hf.
  2:{ split; [|discriminate].
      intros extracted [= <-]. split; [now exists 0|]. congruence. }
  destruct (loads (Py.str_drop start (Py.strip line)))
    as [value|class' text'] eqn:Hc.
  { split; [|discriminate]. intros extracted [= <-].
    split; [now exists start|]. intros _.
    split; [now exists value|]. split; [now exists text|].
    exact (find_char_drop _ _ _ Hf). }
  destruct (String.eqb class' "JSONDecodeError") eqn:Hclass'.
  { split; [|discriminate].
    intros extracted [= <-]. split; [now exists 0|]. congruence. }
  split; [discriminate|]. intros e [= <-]. exists class', text', start.
  apply String.eqb_neq in Hclass'. now repeat split.
Qed.

Lemma extract_json_line_result_witness :
  _extract_json_line Cases.loads_braces " DEBUG {} " = Ok "{}"
  /\ (exists value, Cases.loads_braces "{}" = Done value)
  /\ (exists text,
        Cases.loads_braces (Py.strip " DEBUG {} ")
        = Fails "JSONDecodeError" text)
  /\ exists rest, "{}" = String "{"%char rest.
Proof.
  split; [reflexivity|].
  apply (proj2 (proj1 (proj2 (extract_json_line_result
                                Cases.loads_braces " DEBUG {} "))
                 "{}" eq_refl)).
  intros H. vm_compute in H. discriminate H.
Defined.

End ExtractProps.
